(** * The model resource handler of poly-web

    A shallow embedding of [src/pages/api/models/index.ts]: the request
    handler for the [Model] resource (GET, POST, DELETE), its response
    shaper [makeModelInfo] and its upload parser
    [getFormidableFileFromReq], followed by the properties of the
    handler that the specification states.

    The handler is asynchronous JavaScript over a database client, an
    object store, an authorization helper and a multipart parser.  Here
    it is a computation in a small state-and-exception monad over a
    [World] (database tables and stored objects) that also records the
    collaborator calls it makes. *)

From Stdlib Require Import String Ascii List ZArith Bool Lia.
From Stdlib Require Import Permutation Sorted.
Import ListNotations.
Local Open Scope string_scope.

(** ** JavaScript values of the request *)

(** A query parameter or a form field as Next.js and formidable deliver
    it: a string, or a list of strings when the name is repeated.  An
    absent parameter is [None] ([undefined]). *)
Inductive QVal : Type :=
| QStr (s : string)
| QArr (l : list string).

(** [v.toString()], also the coercion of string concatenation and of
    template literals: an array prints its elements joined by commas. *)
Definition toString (v : QVal) : string :=
  match v with
  | QStr s => s
  | QArr l => String.concat "," l
  end.

(** JavaScript truthiness of [string | string[] | undefined]: the value
    itself when a condition on it takes the true branch.  [undefined]
    and the empty string are falsy, every array is truthy. *)
Definition truthy (v : option QVal) : option QVal :=
  match v with
  | Some (QStr s) => if s =? "" then None else Some (QStr s)
  | Some (QArr l) => Some (QArr l)
  | None => None
  end.

(** Truthiness of [string | null], as in [model.thumbnail ? ... : ""]. *)
Definition truthy_str (v : option string) : option string :=
  match v with
  | Some s => if s =? "" then None else Some s
  | None => None
  end.

(** [s.toUpperCase()] on the ASCII letters. *)
Definition upper_ascii (c : ascii) : ascii :=
  let n := nat_of_ascii c in
  if (97 <=? n)%nat && (n <=? 122)%nat then ascii_of_nat (n - 32) else c.

Fixpoint toUpperCase (s : string) : string :=
  match s with
  | EmptyString => EmptyString
  | String c s' => String (upper_ascii c) (toUpperCase s')
  end.

(** [s] has [sub] as a substring (the database's [contains] filter). *)
Fixpoint contains (s sub : string) : bool :=
  String.prefix sub s
  || match s with
     | EmptyString => false
     | String _ s' => contains s' sub
     end.

(** The double quote character, for the messages that quote a value. *)
Definition dquote : string := String (ascii_of_nat 34) EmptyString.

(** ** Data model *)

(** A stored [Model] row: the columns the handler reads. *)
Module Model.
Record t : Type := mk {
  id : string;
  name : string;
  category : string;
  userId : string;
  modelFile : string;
  thumbnail : option string;
  modelUsdz : option string;
  createdAt : Z
}.
End Model.

(** [ModelInfo]: the row spread into the object, plus three URLs. *)
Record ModelInfo : Type := mkModelInfo {
  model : Model.t;
  modelSrc : string;
  thumbnailSrc : string;
  usdzSrc : string
}.

Module User.
Record t : Type := mk {
  id : string;
  email : string;
  role : string
}.
End User.

(** The part of a next-auth session the handler reads:
    [session.user?.email]. *)
Record SessionUser : Type := mkSessionUser { email : option string }.
Record Session : Type := mkSession { user : option SessionUser }.

(** [session?.user?.email ?? undefined] *)
Definition session_email (session : option Session) : option string :=
  match session with
  | Some s => match user s with
              | Some u => email u
              | None => None
              end
  | None => None
  end.

(** [req.query] *)
Module Query.
Record t : Type := mk {
  id : option QVal;
  uploader : option QVal;
  sort : option QVal;
  category : option QVal;
  filterByName : option QVal;
  orderBy : option QVal
}.
End Query.

(** An uploaded file as formidable hands it over. *)
Record File : Type := mkFile {
  originalFilename : string;
  size : Z
}.

(** A decoded multipart body: named text fields and named files. *)
Inductive Part : Type :=
| FieldPart (field : string) (value : string)
| FilePart (field : string) (file : File).

Record Request : Type := mkRequest {
  method : option string;
  query : Query.t;
  parts : list Part
}.

(** [formidable.Options]; [maxFileSize = None] is [Infinity]. *)
Record FormOptions : Type := mkFormOptions {
  multiples : bool;
  maxFileSize : option Z;
  keepExtensions : bool
}.

(** A value that is absent, single, or a list ([T | T[] | undefined]). *)
Inductive MaybeArray (T : Type) : Type :=
| Absent
| Single (x : T)
| Many (xs : list T).
Arguments Absent {T}.
Arguments Single {T} x.
Arguments Many {T} xs.

(** [FormidableResult] without its [err], which is falsy when the
    promise resolves: [fields.form] and [files.file]. *)
Record FormidableResult : Type := mkFormidableResult {
  fields_form : option QVal;
  files_file : MaybeArray File
}.

(** [OptionalModel]: a partial [Model] under construction. *)
Module OptionalModel.
Record t : Type := mk {
  id : option string;
  name : option string;
  category : option string;
  userId : option string;
  modelFile : option string;
  thumbnail : option string;
  modelUsdz : option string
}.
Definition empty : t := mk None None None None None None None.
Definition set_userId (v : string) (m : t) : t :=
  mk (id m) (name m) (category m) (Some v) (modelFile m) (thumbnail m) (modelUsdz m).
Definition set_category (v : string) (m : t) : t :=
  mk (id m) (name m) (Some v) (userId m) (modelFile m) (thumbnail m) (modelUsdz m).
End OptionalModel.

(** [UploadForm]: the parsed JSON of the [form] field, as key/value
    pairs. *)
Definition UploadForm : Type := list (string * string).

(** The action descriptor given to the authorization helper. *)
Record Action : Type := mkAction { theme : string; action_method : string }.

(** One settled promise of [Promise.allSettled]. *)
Inductive Settled : Type :=
| Fulfilled (value : string)
| Rejected (reason : string).

(** ** The world: database tables and the object store *)

Record World : Type := mkWorld {
  models : list Model.t;
  users : list User.t;
  objects : list string
}.

(** A [where] argument of [prismaClient.model.findMany]. *)
#[warnings="-register-all"]
Inductive ModelWhere : Type :=
| W_OR (qs : list ModelWhere)
| W_uploader_id (uid : string)
| W_name_contains (s : option string)
| W_category (c : string)
| W_and (a b : ModelWhere).

(** The collaborator calls a run of the handler makes, in order. *)
Inductive Call : Type :=
| CallUserFindUnique (email : option string)
| CallModelFindUnique (id : QVal)
| CallModelFindMany (where_ : option ModelWhere) (orderBy_ : option (string * option QVal))
| CallModelDelete (id : string)
| CallDeleteS3Files (id : string)
| CallFormParse (options : FormOptions)
| CallHandlePOST (file : File).

(** ** Results, exceptions and the handler monad *)

Inductive Exn : Type :=
| PrismaValidationError
| PrismaRecordNotFound
| SyntaxError
| Raised (msg : string).

Inductive Res (A : Type) : Type :=
| Ok (a : A)
| Throw (e : Exn).
Arguments Ok {A} a.
Arguments Throw {A} e.

Record St : Type := mkSt { world : World; calls : list Call }.

Definition M (A : Type) : Type := St -> Res A * St.

Definition ret {A} (a : A) : M A := fun st => (Ok a, st).

Definition bind {A B} (m : M A) (k : A -> M B) : M B :=
  fun st =>
    match m st with
    | (Ok a, st') => k a st'
    | (Throw e, st') => (Throw e, st')
    end.

Definition throw {A} (e : Exn) : M A := fun st => (Throw e, st).

(** [try { m } catch (e) { h e }] *)
Definition try_catch {A} (m : M A) (h : Exn -> M A) : M A :=
  fun st =>
    match m st with
    | (Ok a, st') => (Ok a, st')
    | (Throw e, st') => h e st'
    end.

Definition get_world : M World := fun st => (Ok (world st), st).

Definition put_world (w : World) : M unit :=
  fun st => (Ok tt, mkSt w (calls st)).

Definition call (c : Call) : M unit :=
  fun st => (Ok tt, mkSt (world st) (calls st ++ [c])%list).

(** Lift a collaborator's immediate result. *)
Definition lift {A} (r : Res A) : M A := fun st => (r, st).

Notation "x <- c1 ;; c2" := (bind c1 (fun x => c2))
  (at level 61, c1 at next level, right associativity).
Notation "c1 ;;; c2" := (bind c1 (fun _ => c2))
  (at level 61, right associativity).

(** The body of a response, and the response the handler has sent when
    it returns: [res.status(n)] with a body, or none at all. *)
Inductive Body : Type :=
| BodyEmpty
| BodyText (text : string)
| BodyInfos (infos : list ModelInfo)
| BodyData (data : list ModelInfo) (error : option string)
| BodyDataRaw (data : list Model.t) (error : option string)
| BodyOk (ok : bool) (message : string)
| BodyError (error : string)
| BodyResults (results : list Settled).

Inductive Response : Type :=
| Sent (status : Z) (body : Body)
| Unanswered.

(** [res.status(n).end()], [res.status(n).send(text)],
    [res.status(n).json(b)] and [res.json(b)], whose status is 200. *)
Definition status_end (n : Z) : M Response := ret (Sent n BodyEmpty).
Definition status_send (n : Z) (text : string) : M Response :=
  ret (Sent n (BodyText text)).
Definition status_json (n : Z) (b : Body) : M Response := ret (Sent n b).
Definition json (b : Body) : M Response := ret (Sent 200 b).

(** ** Collaborators that are not part of the handler's file *)

Class Collaborators : Type := {
  (** [Categories] of [@libs/client/Util]: the known category names. *)
  Categories : list string;
  (** [hasRight(action, user, resource?)] of [@libs/server/Authorization].
      The third argument is [None] when the call passes none, and
      [Some None] when it passes [null]. *)
  hasRight : Action -> option User.t -> option (option Model.t) -> bool;
  (** [deleteS3Files(modelId)] of [@libs/server/s3client], on the stored
      objects.  [Throw] is an exception raised by the call itself; what
      the promise it returns settles to is never observed. *)
  deleteS3Files : string -> list string -> Res (list string);
  (** [form.parse] of formidable under the given options. *)
  form_parse : FormOptions -> list Part -> Res FormidableResult;
  (** [JSON.parse], read at the type [UploadForm]. *)
  JSON_parse : string -> Res UploadForm;
  (** [getModelFromForm] and [updateModel] of
      [@libs/server/ServerFileHandling]; the latter returns the draft
      after the merge. *)
  getModelFromForm : UploadForm -> OptionalModel.t;
  updateModel : OptionalModel.t -> OptionalModel.t -> OptionalModel.t;
  (** [handlePOST(file, model)]: how the promise settles, the shared
      draft and the world after it. *)
  handlePOST : File -> OptionalModel.t -> World -> Settled * OptionalModel.t * World;
  (** Ordering by a column of the database schema other than
      [createdAt]; [Throw] when the schema or the direction is
      refused. *)
  orderRows : string -> option QVal -> list Model.t -> Res (list Model.t)
}.

(** ** The database client *)

(** Whether a row satisfies a [where] argument.  A [contains] filter on
    [undefined] constrains nothing. *)
Fixpoint matches (w : ModelWhere) (m : Model.t) : bool :=
  match w with
  | W_OR qs => existsb (fun q => matches q m) qs
  | W_uploader_id uid => Model.userId m =? uid
  | W_name_contains None => true
  | W_name_contains (Some s) => contains (Model.name m) s
  | W_category c => Model.category m =? c
  | W_and a b => matches a m && matches b m
  end.

(** Insertion of a row into a list ordered by [createdAt]. *)
Fixpoint insert_by_createdAt (desc : bool) (m : Model.t) (l : list Model.t) : list Model.t :=
  match l with
  | [] => [m]
  | x :: l' =>
      if (if desc then Model.createdAt x <? Model.createdAt m
          else Model.createdAt m <? Model.createdAt x)%Z
      then m :: x :: l'
      else x :: insert_by_createdAt desc m l'
  end.

Definition sort_by_createdAt (desc : bool) (l : list Model.t) : list Model.t :=
  fold_right (insert_by_createdAt desc) [] l.

(** [prismaClient.user.findUnique({ where: { email } })]: the user
    with that email, if any.  The client refuses a [where] whose only
    field is [undefined] and raises; the source notes at both call
    sites that such a lookup should find nothing. *)
Definition user_by_email (email_ : option string) (w : World) : Res (option User.t) :=
  match email_ with
  | Some e => Ok (find (fun u => User.email u =? e) (users w))
  | None => Throw PrismaValidationError
  end.

Definition user_findUnique (email_ : option string) : M (option User.t) :=
  call (CallUserFindUnique email_) ;;;
  w <- get_world ;;
  lift (user_by_email email_ w).

(** [prismaClient.model.findUnique({ where: { id } })].  The handler
    casts the query value to a string; a list reaches the client as it
    is, and the client refuses it. *)
Definition model_by_id (id_ : string) (w : World) : option Model.t :=
  find (fun m => Model.id m =? id_) (models w).

Definition model_findUnique (id_ : QVal) : M (option Model.t) :=
  call (CallModelFindUnique id_) ;;;
  match id_ with
  | QStr s =>
      w <- get_world ;;
      ret (model_by_id s w)
  | QArr _ => throw PrismaValidationError
  end.

(** [prismaClient.model.delete({ where: { id } })]: the row must
    exist. *)
Definition model_delete (id_ : string) : M unit :=
  call (CallModelDelete id_) ;;;
  w <- get_world ;;
  if existsb (fun m => Model.id m =? id_) (models w)
  then put_world (mkWorld (filter (fun m => negb (Model.id m =? id_)) (models w))
                          (users w) (objects w))
  else throw PrismaRecordNotFound.

Section Handler.
Context {collab : Collaborators}.

(** The [orderBy] argument: a column and a direction. *)
Definition order_rows (by_ : option (string * option QVal)) (rows : list Model.t)
  : Res (list Model.t) :=
  match by_ with
  | None => Ok rows
  | Some (column, direction) =>
      if column =? "createdAt" then
        match direction with
        | None => Ok rows
        | Some (QStr d) =>
            if d =? "desc" then Ok (sort_by_createdAt true rows)
            else if d =? "asc" then Ok (sort_by_createdAt false rows)
            else Throw PrismaValidationError
        | Some (QArr _) => Throw PrismaValidationError
        end
      else orderRows column direction rows
  end.

(** What [findMany] answers on a given world. *)
Definition findMany_rows (where_ : option ModelWhere)
    (orderBy_ : option (string * option QVal)) (w : World) : Res (list Model.t) :=
  order_rows orderBy_
    (match where_ with
     | Some q => filter (matches q) (models w)
     | None => models w
     end).

(** [prismaClient.model.findMany({ where, orderBy })] *)
Definition model_findMany (where_ : option ModelWhere)
    (orderBy_ : option (string * option QVal)) : M (list Model.t) :=
  call (CallModelFindMany where_ orderBy_) ;;;
  w <- get_world ;;
  lift (findMany_rows where_ orderBy_ w).

(** ** Response shaping *)

Definition makeModelInfo (m : Model.t) : ModelInfo :=
  let thumbnailSrc :=
    match truthy_str (Model.thumbnail m) with
    | Some thumbnail => "/getResource/models/" ++ Model.id m ++ "/" ++ thumbnail
    | None => ""
    end in
  let usdzSrc :=
    match truthy_str (Model.modelUsdz m) with
    | Some modelUsdz => "/getResource/models/" ++ Model.id m ++ "/" ++ modelUsdz
    | None => ""
    end in
  mkModelInfo m
    ("/getResource/models/" ++ Model.id m ++ "/" ++ Model.modelFile m)
    thumbnailSrc
    usdzSrc.

Definition makeModelInfos (ms : list Model.t) : list ModelInfo :=
  map (fun m => makeModelInfo m) ms.

(** ** The read path *)

(** The [where] and [orderBy] built from [sort], [category],
    [filterByName] and [orderBy] of the query. *)
Definition sort_where (q : Query.t) : ModelWhere :=
  let where_ := W_name_contains (option_map toString (Query.filterByName q)) in
  match truthy (Query.category q) with
  | Some category =>
      if existsb (String.eqb (toString category)) Categories
      then W_and where_ (W_category (toUpperCase (toString category)))
      else where_
  | None => where_
  end.

Definition sort_orderBy (sort : QVal) (q : Query.t) : string * option QVal :=
  (toString sort, Query.orderBy q).

(** The message of an empty result. *)
Definition errorMessage (q : Query.t) : option string :=
  match truthy (Query.filterByName q) with
  | Some filterByName =>
      match truthy (Query.category q) with
      | Some category =>
          Some ("We couldn't find any matches for " ++ dquote
                ++ toString filterByName ++ dquote ++ " " ++ "in "
                ++ toString category)
      | None =>
          Some ("We couldn't find any matches for " ++ dquote
                ++ toString filterByName ++ dquote)
      end
  | None =>
      match truthy (Query.category q) with
      | Some category =>
          Some ("We couldn't find any matches in " ++ dquote
                ++ toString category ++ dquote)
      | None => None
      end
  end.

Definition handler_GET (req : Request) : M Response :=
  let q := query req in
  match truthy (Query.id q) with
  | Some id_ =>
      model <- model_findUnique id_ ;;
      match model with
      | None => status_end 404
      | Some model => json (BodyInfos [makeModelInfo model])
      end
  | None =>
  match truthy (Query.uploader q) with
  | Some uploader =>
      let uploaders :=
        match uploader with
        | QStr s => [s]
        | QArr l => l
        end in
      let querys := map (fun uploaderId => W_uploader_id uploaderId) uploaders in
      model <- model_findMany (Some (W_OR querys)) None ;;
      json (BodyInfos (makeModelInfos model))
  | None =>
  match truthy (Query.sort q) with
  | Some sort =>
      modelList <- model_findMany (Some (sort_where q)) (Some (sort_orderBy sort q)) ;;
      match modelList with
      | [] => status_json 404 (BodyDataRaw modelList (errorMessage q))
      | _ :: _ => status_json 200 (BodyData (makeModelInfos modelList) None)
      end
  | None =>
      modelList <- model_findMany None (Some ("createdAt", Some (QStr "desc"))) ;;
      status_json 200 (BodyInfos (makeModelInfos modelList))
  end end end.

(** ** The write path *)

(** [getFormidableFileFromReq(req, options)]: formidable under the given
    options, or under the default ones; the promise rejects when the
    parse reports an error. *)
Definition default_options : FormOptions :=
  mkFormOptions true (Some (Z.shiftl 100 20)) true.

Definition getFormidableFileFromReq (req : Request) (options : option FormOptions)
  : M FormidableResult :=
  let form :=
    match options with
    | Some o => o
    | None => default_options
    end in
  call (CallFormParse form) ;;;
  lift (form_parse form (parts req)).

(** The options of an upload by [user]: no size limit for the
    privileged roles, [undefined] (the default options) otherwise. *)
Definition upload_option (user : User.t) : option FormOptions :=
  let isAdminOrDev :=
    (User.role user =? "ADMIN") || (User.role user =? "DEVELOPER") in
  if isAdminOrDev then Some (mkFormOptions true None true) else None.

(** Modelled from the spec: [makeMaybeArrayToArray] of
    [@libs/server/ServerFileHandling], which normalizes the files field
    (a single file or a list) into a list of zero or more files. *)
Definition makeMaybeArrayToArray {T} (v : MaybeArray T) : list T :=
  match v with
  | Absent => []
  | Single x => [x]
  | Many xs => xs
  end.

(** [Promise.allSettled(files.map((file) => handlePOST(file, model)))]:
    one call per file in the order of the list, all on the one shared
    draft; a rejected promise is an entry of the result, never an
    exception.  Each call is taken as one step on the world. *)
Fixpoint allSettled_handlePOST (files : list File) (draft : OptionalModel.t)
  : M (list Settled) :=
  match files with
  | [] => ret []
  | file :: rest =>
      call (CallHandlePOST file) ;;;
      w <- get_world ;;
      let '(outcome, draft', w') := handlePOST file draft w in
      put_world w' ;;;
      results <- allSettled_handlePOST rest draft' ;;
      ret (outcome :: results)
  end.

(** The draft record of an upload: the uploader, then the merged form
    or the default category. *)
Definition draft_model (u : User.t) (formidable : FormidableResult)
  : M OptionalModel.t :=
  let model := OptionalModel.set_userId (User.id u) OptionalModel.empty in
  match truthy (fields_form formidable) with
  | Some form_field =>
      form <- lift (JSON_parse (toString form_field)) ;;
      ret (updateModel model (getModelFromForm form))
  | None => ret (OptionalModel.set_category "MISC" model)
  end.

Definition handler_POST (session : option Session) (req : Request) : M Response :=
  match session with
  | None => status_send 401 "Login first"
  | Some _ =>
      user <- user_findUnique (session_email session) ;;
      match user with
      | None => status_end 401
      | Some user =>
          if negb (hasRight (mkAction "model" "create") (Some user) None)
          then status_json 403 (BodyOk false "로그인이 필요합니다.")
          else
            let option_ := upload_option user in
            formidable <-
              try_catch
                (r <- getFormidableFileFromReq req option_ ;; ret (inl r))
                (fun _ => ret (inr "Failed")) ;;
            match formidable with
            | inr _ =>
                json (BodyOk false
                        "Failed to parse your request. Check your model size.")
            | inl formidable =>
                model <- draft_model user formidable ;;
                let files := makeMaybeArrayToArray (files_file formidable) in
                results <- allSettled_handlePOST files model ;;
                json (BodyResults results)
            end
      end
  end.

(** ** The delete path *)

(** [Array.isArray(req.query.id) ? req.query.id[0] : req.query.id],
    when it is truthy. *)
Definition modelId_of (q : Query.t) : option string :=
  truthy_str
    (match Query.id q with
     | Some (QArr l) => nth_error l 0
     | Some (QStr s) => Some s
     | None => None
     end).

Definition handler_DELETE (session : option Session) (req : Request) : M Response :=
  user <- user_findUnique (session_email session) ;;
  match modelId_of (query req) with
  | None => status_json 400 (BodyError "model id query not found")
  | Some modelId =>
      model <- model_findUnique (QStr modelId) ;;
      if negb (hasRight (mkAction "model" "delete") user (Some model))
      then status_end 403
      else
        try_catch
          (call (CallDeleteS3Files modelId) ;;;
           w <- get_world ;;
           (* not awaited: only an exception of the call itself is seen *)
           objects' <- lift (deleteS3Files modelId (objects w)) ;;
           put_world (mkWorld (models w) (users w) objects') ;;;
           model_delete modelId ;;;
           json (BodyOk true "delete success!"))
          (fun _ => status_json 500 (BodyOk false "Failed while deleting."))
  end.

(** ** The handler *)

Definition allowedMethod : list string := ["GET"; "POST"; "DELETE"].

(** [req.method === m] *)
Definition method_is (req : Request) (m : string) : bool :=
  match method req with
  | Some m' => m' =? m
  | None => false
  end.

(** [handler(req, res)], given what [getSession({ req })] resolved to. *)
Definition handler (session : option Session) (req : Request) : M Response :=
  if negb (existsb (String.eqb (match method req with Some m => m | None => "" end))
             allowedMethod)
  then status_end 405
  else if method_is req "GET" then handler_GET req
  else if method_is req "POST" then handler_POST session req
  else if method_is req "DELETE" then handler_DELETE session req
  else ret Unanswered.

(** A run of the handler from a world, with an empty call record. *)
Definition run (session : option Session) (req : Request) (w : World)
  : Res Response * St :=
  handler session req (mkSt w []).

End Handler.

(** ** The vocabulary of the statements *)

(** A query parameter that is not given, or given as the empty string:
    what a JavaScript condition on it takes for false. *)
Definition absent_or_empty (v : option QVal) : Prop :=
  v = None \/ v = Some (QStr "").

(** A query parameter given as [x], which is not the empty string. *)
Definition supplied (v : option QVal) (x : QVal) : Prop :=
  v = Some x /\ x <> QStr "".

(** The uploader ids a query names: the string, or the strings of the
    list. *)
Definition uploaders_of (v : QVal) : list string :=
  match v with
  | QStr s => [s]
  | QArr l => l
  end.

(** The row's uploader is one of [ids]. *)
Definition uploaded_by_any (ids : list string) (m : Model.t) : bool :=
  existsb (String.eqb (Model.userId m)) ids.

(** The path template of the specification,
    [/getResource/models/{id}/{filename}], and its use on an optional
    filename: the empty string when there is no filename. *)
Definition resource_url (id_ filename : string) : string :=
  "/getResource/models/" ++ id_ ++ "/" ++ filename.

Definition optional_url (id_ : string) (filename : option string) : string :=
  match filename with
  | Some f => if f =? "" then "" else resource_url id_ f
  | None => ""
  end.

(** The calls of a record that process an uploaded file, and those that
    delete something. *)
Definition processed_files (cs : list Call) : list File :=
  flat_map (fun c => match c with CallHandlePOST f => [f] | _ => [] end) cs.

Definition is_delete (c : Call) : bool :=
  match c with
  | CallModelDelete _ | CallDeleteS3Files _ => true
  | _ => false
  end.

Section Statements.
Context {collab : Collaborators}.

(** The files of an upload processed one after the other, each on the
    draft and the world the previous ones left: the settled outcomes in
    the order of the files, and the world after the last one. *)
Fixpoint settle_each (files : list File) (draft : OptionalModel.t) (w : World)
  : list Settled * World :=
  match files with
  | [] => ([], w)
  | file :: rest =>
      let '(outcome, draft', w') := handlePOST file draft w in
      let '(outcomes, w'') := settle_each rest draft' w' in
      (outcome :: outcomes, w'')
  end.

(** The draft record of an upload by [u]: stamped with the uploader's
    id, then given the category [MISC] when no form field is supplied,
    or merged with the parsed form when one is and it parses. *)
Inductive drafted (u : User.t) (formidable : FormidableResult)
  : OptionalModel.t -> Prop :=
| drafted_default :
    absent_or_empty (fields_form formidable) ->
    drafted u formidable
      (OptionalModel.set_category "MISC"
         (OptionalModel.set_userId (User.id u) OptionalModel.empty))
| drafted_form (form_field : QVal) (form : UploadForm) :
    supplied (fields_form formidable) form_field ->
    JSON_parse (toString form_field) = Ok form ->
    drafted u formidable
      (updateModel (OptionalModel.set_userId (User.id u) OptionalModel.empty)
         (getModelFromForm form)).

(** The options formidable runs under for an upload by [u]. *)
Definition options_for (u : User.t) : FormOptions :=
  match upload_option u with
  | Some o => o
  | None => default_options
  end.

End Statements.

(** ** A concrete set of collaborators

    One implementation of each collaborator, and a small world, on which
    the handler can be run.  The general properties below hold for every
    [Collaborators]; these are used to evaluate the handler on concrete
    requests. *)
Module Demo.

(** An authorization policy: nobody without a user record; creation
    for every role but [GUEST]; deletion of an existing record by an
    [ADMIN] or by its uploader. *)
Definition policy (a : Action) (u : option User.t) (r : option (option Model.t)) : bool :=
  match u with
  | None => false
  | Some u =>
      if action_method a =? "create" then negb (User.role u =? "GUEST")
      else if action_method a =? "delete" then
        match r with
        | Some (Some m) => (User.role u =? "ADMIN") || (Model.userId m =? User.id u)
        | _ => false
        end
      else false
  end.

(** Objects are stored under [models/{id}/]. *)
Definition delete_objects (id_ : string) (objs : list string) : Res (list string) :=
  Ok (filter (fun key => negb (String.prefix ("models/" ++ id_ ++ "/") key)) objs).

Definition part_files (p : Part) : list File :=
  match p with
  | FilePart f file => if f =? "file" then [file] else []
  | FieldPart _ _ => []
  end.

Definition part_forms (p : Part) : list string :=
  match p with
  | FieldPart f v => if f =? "form" then [v] else []
  | FilePart _ _ => []
  end.

(** A multipart parser that enforces [maxFileSize] on the bytes of all
    files together and groups repeated names into lists. *)
Definition parse_parts (o : FormOptions) (ps : list Part) : Res FormidableResult :=
  let files := flat_map part_files ps in
  let total := fold_right Z.add 0%Z (map size files) in
  let too_large :=
    match maxFileSize o with
    | Some cap => (cap <? total)%Z
    | None => false
    end in
  if too_large then Throw (Raised "maxFileSize exceeded")
  else Ok (mkFormidableResult
             (match flat_map part_forms ps with
              | [] => None
              | [v] => Some (QStr v)
              | vs => Some (QArr vs)
              end)
             (match files with
              | [] => Absent
              | [f] => Single f
              | fs => Many fs
              end)).

(** A reader of JSON texts for flat objects of string members, without
    blanks or escapes: on such a text, and on a text that is no JSON at
    all, it answers as [JSON.parse] does. *)
Fixpoint read_until_quote (s : string) : option (string * string) :=
  match s with
  | EmptyString => None
  | String c s' =>
      if Ascii.eqb c (ascii_of_nat 34) then Some (EmptyString, s')
      else match read_until_quote s' with
           | Some (v, rest) => Some (String c v, rest)
           | None => None
           end
  end.

Definition read_string (s : string) : option (string * string) :=
  match s with
  | String c s' => if Ascii.eqb c (ascii_of_nat 34) then read_until_quote s' else None
  | EmptyString => None
  end.

Fixpoint read_members (fuel : nat) (s : string) : option UploadForm :=
  match fuel with
  | O => None
  | S fuel' =>
      match read_string s with
      | Some (k, String ":" s1) =>
          match read_string s1 with
          | Some (v, String "}" EmptyString) => Some [(k, v)]
          | Some (v, String "," s2) =>
              match read_members fuel' s2 with
              | Some kvs => Some ((k, v) :: kvs)
              | None => None
              end
          | _ => None
          end
      | _ => None
      end
  end.

Definition parse_json (s : string) : Res UploadForm :=
  match s with
  | String "{" (String "}" EmptyString) => Ok []
  | String "{" s' =>
      match read_members (String.length s') s' with
      | Some kvs => Ok kvs
      | None => Throw SyntaxError
      end
  | _ => Throw SyntaxError
  end.

Definition lookup (k : string) (form : UploadForm) : option string :=
  match find (fun kv => fst kv =? k) form with
  | Some kv => Some (snd kv)
  | None => None
  end.

Definition model_of_form (form : UploadForm) : OptionalModel.t :=
  OptionalModel.mk None (lookup "name" form)
    (option_map toUpperCase (lookup "category" form)) None None None None.

Definition or_else {A} (a b : option A) : option A :=
  match a with
  | Some _ => a
  | None => b
  end.

Definition merge (m p : OptionalModel.t) : OptionalModel.t :=
  OptionalModel.mk
    (or_else (OptionalModel.id p) (OptionalModel.id m))
    (or_else (OptionalModel.name p) (OptionalModel.name m))
    (or_else (OptionalModel.category p) (OptionalModel.category m))
    (or_else (OptionalModel.userId p) (OptionalModel.userId m))
    (or_else (OptionalModel.modelFile p) (OptionalModel.modelFile m))
    (or_else (OptionalModel.thumbnail p) (OptionalModel.thumbnail m))
    (or_else (OptionalModel.modelUsdz p) (OptionalModel.modelUsdz m)).

Definition get_or (d : string) (v : option string) : string :=
  match v with
  | Some s => s
  | None => d
  end.

(** An upload step: an empty file is rejected; any other file is stored
    and recorded under an id made of its name. *)
Definition upload (file : File) (draft : OptionalModel.t) (w : World)
  : Settled * OptionalModel.t * World :=
  if (size file <=? 0)%Z then (Rejected "empty file", draft, w)
  else
    let id_ := "m-" ++ originalFilename file in
    let row :=
      Model.mk id_
        (get_or (originalFilename file) (OptionalModel.name draft))
        (get_or "MISC" (OptionalModel.category draft))
        (get_or "" (OptionalModel.userId draft))
        (originalFilename file) None None
        (Z.of_nat (List.length (models w))) in
    (Fulfilled id_, draft,
     mkWorld (models w ++ [row])%list (users w)
       (app (objects w) ["models/" ++ id_ ++ "/" ++ originalFilename file])).

Fixpoint insert_by_name (m : Model.t) (l : list Model.t) : list Model.t :=
  match l with
  | [] => [m]
  | x :: l' =>
      if String.leb (Model.name m) (Model.name x) then m :: x :: l'
      else x :: insert_by_name m l'
  end.

(** Ordering by the [name] column; no other column is known. *)
Definition order_by_name (column : string) (direction : option QVal) (rows : list Model.t)
  : Res (list Model.t) :=
  if column =? "name" then
    match direction with
    | None => Ok rows
    | Some (QStr d) =>
        if d =? "asc" then Ok (fold_right insert_by_name [] rows)
        else if d =? "desc" then Ok (rev (fold_right insert_by_name [] rows))
        else Throw PrismaValidationError
    | Some (QArr _) => Throw PrismaValidationError
    end
  else Throw PrismaValidationError.

Definition collab : Collaborators := {|
  Categories := ["misc"; "furniture"; "food"];
  hasRight := policy;
  deleteS3Files := delete_objects;
  form_parse := parse_parts;
  JSON_parse := parse_json;
  getModelFromForm := model_of_form;
  updateModel := merge;
  handlePOST := upload;
  orderRows := order_by_name
|}.

Definition chair : Model.t :=
  Model.mk "42" "chair" "FURNITURE" "u-bob" "chair.glb" (Some "t.png") None 10.
Definition apple : Model.t :=
  Model.mk "7" "apple" "FOOD" "u-alice" "apple.glb" None (Some "apple.usdz") 20.

Definition alice : User.t := User.mk "u-alice" "alice@example.org" "ADMIN".
Definition bob : User.t := User.mk "u-bob" "bob@example.org" "USER".
Definition guest : User.t := User.mk "u-guest" "guest@example.org" "GUEST".

Definition world0 : World :=
  mkWorld [chair; apple] [alice; bob; guest]
    ["models/42/chair.glb"; "models/42/t.png"; "models/7/apple.glb"].

Definition empty_world : World := mkWorld [] [alice; bob; guest] [].

Definition session_of (u : User.t) : option Session :=
  Some (mkSession (Some (mkSessionUser (Some (User.email u))))).

Definition no_query : Query.t := Query.mk None None None None None None.

Definition get (q : Query.t) : Request := mkRequest (Some "GET") q [].
Definition post (ps : list Part) : Request := mkRequest (Some "POST") no_query ps.
Definition delete (id_ : option QVal) : Request :=
  mkRequest (Some "DELETE") (Query.mk id_ None None None None None) [].

(** As [collab], with an object store whose deletion call raises. *)
Definition storage_down : Collaborators := {|
  Categories := ["misc"; "furniture"; "food"];
  hasRight := policy;
  deleteS3Files := fun _ _ => Throw (Raised "storage unreachable");
  form_parse := parse_parts;
  JSON_parse := parse_json;
  getModelFromForm := model_of_form;
  updateModel := merge;
  handlePOST := upload;
  orderRows := order_by_name
|}.

(** Requests. *)
Definition get_chair : Request :=
  get (Query.mk (Some (QStr "42")) None None None None None).
Definition get_empty_id : Request :=
  get (Query.mk (Some (QStr "")) None None None None None).
Definition get_two_uploaders : Request :=
  get (Query.mk None (Some (QArr ["u-bob"; "u-alice"])) None None None None).
Definition get_empty_uploader : Request :=
  get (Query.mk None (Some (QStr "")) None None None None).
Definition get_zzz : Request :=
  get (Query.mk None None (Some (QStr "name")) None (Some (QStr "zzz"))
         (Some (QStr "asc"))).
Definition get_empty_sort : Request :=
  get (Query.mk None None (Some (QStr "")) None None None).
Definition get_food_empty_filter : Request :=
  get (Query.mk None None (Some (QStr "name")) (Some (QStr "food"))
         (Some (QStr "")) (Some (QStr "asc"))).

Definition a_glb : File := mkFile "a.glb" 5.
Definition b_glb : File := mkFile "b.glb" 0.
Definition huge_glb : File := mkFile "huge.glb" 104857601.

(** The text [{"name":"desk"}]. *)
Definition desk_form : string :=
  "{" ++ dquote ++ "name" ++ dquote ++ ":" ++ dquote ++ "desk" ++ dquote ++ "}".

Definition post_two_files : Request :=
  post [FieldPart "form" desk_form; FilePart "file" a_glb; FilePart "file" b_glb].
Definition post_broken_form : Request :=
  post [FieldPart "form" "{"; FilePart "file" a_glb].
Definition post_huge : Request := post [FilePart "file" huge_glb].

Definition unknown_session : option Session :=
  Some (mkSession (Some (mkSessionUser (Some "nobody@example.org")))).

End Demo.

(** ** The vocabulary of the further properties *)

(** The calls that only read the database. *)
Definition is_read (c : Call) : bool :=
  match c with
  | CallModelFindUnique _ | CallModelFindMany _ _ => true
  | _ => false
  end.

(** The status codes the handler sends. *)
Definition status_codes : list Z := [200; 400; 401; 403; 404; 405; 500]%Z.

(** The query without its [category]. *)
Definition without_category (q : Query.t) : Query.t :=
  Query.mk (Query.id q) (Query.uploader q) (Query.sort q) None
    (Query.filterByName q) (Query.orderBy q).

(** [a] was created no earlier than [b]. *)
Definition newer_first (a b : Model.t) : Prop :=
  (Model.createdAt b <= Model.createdAt a)%Z.

(** The values of [query.id] for which a DELETE has no model id: none,
    the empty string, the empty list, a list that starts with the empty
    string. *)
Definition no_model_id (v : option QVal) : Prop :=
  v = None \/ v = Some (QStr "") \/ v = Some (QArr [])
  \/ exists rest, v = Some (QArr ("" :: rest)).

Section Rights.
Context {collab : Collaborators}.

(** The session resolves to a user who has the right to create. *)
Definition may_create (session : option Session) (w : World) : Prop :=
  exists s u,
    session = Some s
    /\ user_by_email (session_email session) w = Ok (Some u)
    /\ hasRight (mkAction "model" "create") (Some u) None = true.

(** The request names a model, the lookup of the session's user
    returns, and the user it returns (if any) has the right to delete
    the model. *)
Definition may_delete (session : option Session) (req : Request) (w : World) : Prop :=
  exists modelId user,
    modelId_of (query req) = Some modelId
    /\ user_by_email (session_email session) w = Ok user
    /\ hasRight (mkAction "model" "delete") user
         (Some (model_by_id modelId w)) = true.

End Rights.

(** Further requests on the world of [Demo]. *)
Module Cases.

Definition put : Request := mkRequest (Some "PUT") Demo.no_query [].

Definition get_chair_and_more : Request :=
  Demo.get (Query.mk (Some (QStr "42")) (Some (QStr "u-alice")) (Some (QStr "name"))
              (Some (QStr "food")) (Some (QStr "zzz")) (Some (QStr "desc"))).

Definition get_by_name_a : Request :=
  Demo.get (Query.mk None None (Some (QStr "name")) None (Some (QStr "a"))
              (Some (QStr "asc"))).

Definition get_by_unknown_column : Request :=
  Demo.get (Query.mk None None (Some (QStr "price")) None None (Some (QStr "asc"))).

Definition food_query : Query.t :=
  Query.mk None None (Some (QStr "name")) (Some (QStr "food")) None None.

Definition delete_first_of_two : Request :=
  mkRequest (Some "DELETE")
    (Query.mk (Some (QArr ["42"; "7"])) (Some (QStr "u-alice")) None None None None)
    [FieldPart "form" "{}"].

(** A session as next-auth gives it when it holds no user. *)
Definition session_without_email : option Session := Some (mkSession None).

End Cases.

(** Splits off the leading conjuncts that are among the hypotheses. *)
Ltac given := repeat (split; [assumption |]).

(** * Properties *)

(** ** Truthiness and dispatch *)

Lemma truthy_absent_or_empty (v : option QVal) :
  absent_or_empty v -> truthy v = None.
Proof.
  intros [-> | ->]; reflexivity.
Qed.

Lemma truthy_supplied (v : option QVal) (x : QVal) :
  supplied v x -> truthy v = Some x.
Proof.
  intros [-> Hx]. destruct x as [s | l]; simpl; [| reflexivity].
  destruct (String.eqb_spec s "") as [-> | _]; [| reflexivity].
  now contradiction Hx.
Qed.

Lemma truthy_cases (v : option QVal) :
  (absent_or_empty v /\ truthy v = None)
  \/ (exists x, supplied v x /\ truthy v = Some x).
Proof.
  destruct v as [[s | l] |]; simpl.
  - destruct (String.eqb_spec s "") as [-> | Hs].
    + left. split; [right |]; reflexivity.
    + right. exists (QStr s). repeat split. congruence.
  - right. exists (QArr l). repeat split. discriminate.
  - left. split; [left |]; reflexivity.
Qed.

Section Properties.
Context {collab : Collaborators}.

Lemma handler_GET_dispatch (session : option Session) (req : Request) :
  method req = Some "GET" -> handler session req = handler_GET req.
Proof.
  intros Hm. unfold handler, method_is. rewrite Hm. reflexivity.
Qed.

Lemma handler_POST_dispatch (session : option Session) (req : Request) :
  method req = Some "POST" -> handler session req = handler_POST session req.
Proof.
  intros Hm. unfold handler, method_is. rewrite Hm. reflexivity.
Qed.

Lemma handler_DELETE_dispatch (session : option Session) (req : Request) :
  method req = Some "DELETE" -> handler session req = handler_DELETE session req.
Proof.
  intros Hm. unfold handler, method_is. rewrite Hm. reflexivity.
Qed.

(** ** The database client *)

Lemma model_by_id_none (s : string) (w : World) :
  (forall m, In m (models w) -> Model.id m <> s) -> model_by_id s w = None.
Proof.
  intros Hno. unfold model_by_id.
  destruct (find _ (models w)) as [m |] eqn:Hf; [| reflexivity].
  apply find_some in Hf as [Hin Heq].
  apply String.eqb_eq in Heq. now elim (Hno m Hin).
Qed.

Lemma find_unique_id (s : string) (ms : list Model.t) (m : Model.t) :
  NoDup (map Model.id ms) -> In m ms -> Model.id m = s ->
  find (fun x => Model.id x =? s) ms = Some m.
Proof.
  induction ms as [| x ms IH]; intros Hnd Hin Hid; [contradiction |].
  simpl in *. inversion Hnd as [| ? ? Hnotin Hnd']; subst.
  destruct Hin as [-> | Hin].
  - now rewrite String.eqb_refl.
  - destruct (String.eqb_spec (Model.id x) (Model.id m)) as [Heq | _].
    + elim Hnotin. rewrite Heq. now apply in_map.
    + now apply IH.
Qed.

Lemma matches_OR_uploaders (ids : list string) (m : Model.t) :
  matches (W_OR (map (fun uploaderId => W_uploader_id uploaderId) ids)) m
  = uploaded_by_any ids m.
Proof.
  unfold uploaded_by_any. simpl.
  induction ids as [| u ids IH]; simpl; [reflexivity |].
  now rewrite IH.
Qed.

Lemma uploaded_by_any_spec (ids : list string) (m : Model.t) :
  uploaded_by_any ids m = true <-> In (Model.userId m) ids.
Proof.
  unfold uploaded_by_any. rewrite existsb_exists. split.
  - intros [u [Hin Heq]]. apply String.eqb_eq in Heq. now rewrite Heq.
  - intros Hin. exists (Model.userId m). split; [exact Hin | apply String.eqb_refl].
Qed.

(** ** Response shaping *)

(** C4.  The shaper is a function of the stored row alone: it keeps the
    row, sets [modelSrc] to [/getResource/models/{id}/{modelFile}], and
    sets [thumbnailSrc] and [usdzSrc] to the same template on the
    thumbnail and USDZ filenames, or to the empty string when the row
    has no such filename ([null] or an empty name).  On a list it is
    this function on each element, in order. *)
Theorem makeModelInfo_shape (m : Model.t) (ms : list Model.t) (i : nat) :
  makeModelInfo m
  = mkModelInfo m
      (resource_url (Model.id m) (Model.modelFile m))
      (optional_url (Model.id m) (Model.thumbnail m))
      (optional_url (Model.id m) (Model.modelUsdz m))
  /\ List.length (makeModelInfos ms) = List.length ms
  /\ nth_error (makeModelInfos ms) i = option_map makeModelInfo (nth_error ms i).
Proof.
  split; [| split].
  - unfold makeModelInfo, optional_url, resource_url, truthy_str.
    destruct (Model.thumbnail m) as [t |], (Model.modelUsdz m) as [z |];
      try destruct (t =? ""); try destruct (z =? ""); reflexivity.
  - unfold makeModelInfos. apply length_map.
  - unfold makeModelInfos. apply nth_error_map.
Qed.

(** ** The read path *)

(** C8, as amended.  A GET whose [query.id] is a string other than the
    empty one makes one [findUnique] call with that id and nothing
    else; when no row has the id the answer is 404 with an empty body,
    and when a row has it the answer is the one-element list of its
    shaped form. *)
Theorem get_by_id (session : option Session) (req : Request) (w : World) (s : string) :
  method req = Some "GET" ->
  Query.id (query req) = Some (QStr s) ->
  s <> "" ->
  snd (run session req w) = mkSt w [CallModelFindUnique (QStr s)]
  /\ ((forall m, In m (models w) -> Model.id m <> s) ->
      fst (run session req w) = Ok (Sent 404 BodyEmpty))
  /\ (forall m, NoDup (map Model.id (models w)) -> In m (models w) -> Model.id m = s ->
      fst (run session req w) = Ok (Sent 200 (BodyInfos [makeModelInfo m]))).
Proof.
  intros Hm Hid Hs. unfold run. rewrite (handler_GET_dispatch _ _ Hm).
  unfold handler_GET. rewrite Hid. simpl.
  destruct (String.eqb_spec s "") as [-> | _]; [now contradiction Hs |].
  unfold bind, model_findUnique, bind, call, get_world, ret. simpl.
  split; [| split].
  - now destruct (model_by_id s w).
  - intros Hno. now rewrite (model_by_id_none s w Hno).
  - intros m Hnd Hin Heq. unfold model_by_id.
    now rewrite (find_unique_id s (models w) m Hnd Hin Heq).
Qed.

(** C9, as amended.  A GET whose [query.id] is absent or empty and whose
    [query.uploader] is a non-empty string or a list makes one
    [findMany] call and answers 200 with the shaped list of the rows
    whose uploader id is one of the given values, in table order; the
    list may be empty. *)
Theorem get_by_uploader (session : option Session) (req : Request) (w : World)
    (uploader : QVal) :
  method req = Some "GET" ->
  absent_or_empty (Query.id (query req)) ->
  supplied (Query.uploader (query req)) uploader ->
  let rows := filter (uploaded_by_any (uploaders_of uploader)) (models w) in
  fst (run session req w) = Ok (Sent 200 (BodyInfos (makeModelInfos rows)))
  /\ world (snd (run session req w)) = w
  /\ (forall m, In m rows <->
        In m (models w) /\ In (Model.userId m) (uploaders_of uploader)).
Proof.
  intros Hm Hid Hup rows. unfold run. rewrite (handler_GET_dispatch _ _ Hm).
  unfold handler_GET.
  rewrite (truthy_absent_or_empty _ Hid), (truthy_supplied _ _ Hup).
  unfold bind, model_findMany, bind, call, get_world, lift, json, ret,
    findMany_rows, order_rows. simpl.
  assert (Hrows :
    filter (matches (W_OR (map (fun uploaderId => W_uploader_id uploaderId)
                             (uploaders_of uploader)))) (models w) = rows).
  { unfold rows. apply filter_ext. intros m. apply matches_OR_uploaders. }
  split; [| split].
  - destruct uploader as [u | l]; simpl in *; now rewrite Hrows.
  - now destruct uploader.
  - intros m. unfold rows. rewrite filter_In, uploaded_by_any_spec. reflexivity.
Qed.

(** C10.  On a GET the run of the handler (the response, the world and
    the calls made) is the same whatever the session is. *)
Theorem get_ignores_session (session session' : option Session) (req : Request)
    (w : World) :
  method req = Some "GET" ->
  run session req w = run session' req w.
Proof.
  intros Hm. unfold run.
  rewrite (handler_GET_dispatch session req Hm).
  now rewrite (handler_GET_dispatch session' req Hm).
Qed.

(** C5, as amended.  A GET whose [query.sort] is given and not empty,
    whose [query.id] and [query.uploader] are each absent or empty, and
    whose query finds no row, is answered 404 with [{data, error}],
    [data] being the empty list.  With "supplied" read as given and not
    the empty string, [error] quotes [filterByName] and names
    [category] when both are supplied, quotes [filterByName] when it
    alone is, names [category] when it alone is, and is [undefined]
    when neither is; a message about [filterByName] contains its
    value. *)
Theorem get_sorted_no_match (session : option Session) (req : Request) (w : World)
    (sort : QVal) :
  method req = Some "GET" ->
  absent_or_empty (Query.id (query req)) ->
  absent_or_empty (Query.uploader (query req)) ->
  supplied (Query.sort (query req)) sort ->
  findMany_rows (Some (sort_where (query req)))
    (Some (sort_orderBy sort (query req))) w = Ok [] ->
  exists message,
    fst (run session req w) = Ok (Sent 404 (BodyDataRaw [] message))
    /\ (forall f c,
          supplied (Query.filterByName (query req)) f ->
          supplied (Query.category (query req)) c ->
          message = Some ("We couldn't find any matches for " ++ dquote
                          ++ toString f ++ dquote ++ " in " ++ toString c))
    /\ (forall f,
          supplied (Query.filterByName (query req)) f ->
          absent_or_empty (Query.category (query req)) ->
          message = Some ("We couldn't find any matches for " ++ dquote
                          ++ toString f ++ dquote))
    /\ (forall c,
          absent_or_empty (Query.filterByName (query req)) ->
          supplied (Query.category (query req)) c ->
          message = Some ("We couldn't find any matches in " ++ dquote
                          ++ toString c ++ dquote))
    /\ (absent_or_empty (Query.filterByName (query req)) ->
        absent_or_empty (Query.category (query req)) ->
        message = None)
    /\ (forall f,
          supplied (Query.filterByName (query req)) f ->
          exists before after, message = Some (before ++ toString f ++ after)).
Proof.
  intros Hm Hid Hup Hsort Hrows. exists (errorMessage (query req)).
  split.
  - unfold run. rewrite (handler_GET_dispatch _ _ Hm). unfold handler_GET.
    rewrite (truthy_absent_or_empty _ Hid), (truthy_absent_or_empty _ Hup),
      (truthy_supplied _ _ Hsort).
    unfold bind at 1. unfold model_findMany, bind, call, get_world, lift.
    cbn -[findMany_rows]. now rewrite Hrows.
  - unfold errorMessage. repeat split.
    + intros f c Hf Hc.
      now rewrite (truthy_supplied _ _ Hf), (truthy_supplied _ _ Hc).
    + intros f Hf Hc.
      now rewrite (truthy_supplied _ _ Hf), (truthy_absent_or_empty _ Hc).
    + intros c Hf Hc.
      now rewrite (truthy_absent_or_empty _ Hf), (truthy_supplied _ _ Hc).
    + intros Hf Hc.
      now rewrite (truthy_absent_or_empty _ Hf), (truthy_absent_or_empty _ Hc).
    + intros f Hf. rewrite (truthy_supplied _ _ Hf).
      destruct (truthy (Query.category (query req))) as [c |].
      * exists ("We couldn't find any matches for " ++ dquote),
          (dquote ++ " in " ++ toString c). reflexivity.
      * exists ("We couldn't find any matches for " ++ dquote), dquote.
        reflexivity.
Qed.

(** ** The write path *)

Lemma allSettled_handlePOST_run (files : list File) (draft : OptionalModel.t) (st : St) :
  allSettled_handlePOST files draft st
  = (Ok (fst (settle_each files draft (world st))),
     mkSt (snd (settle_each files draft (world st)))
       (calls st ++ map CallHandlePOST files)).
Proof.
  revert draft st. induction files as [| file rest IH]; intros draft st.
  - simpl. unfold ret. rewrite app_nil_r. now destruct st.
  - simpl. unfold bind at 1. unfold call. unfold bind at 1. unfold get_world.
    simpl. destruct (handlePOST file draft (world st)) as [[outcome draft'] w'].
    unfold bind at 1. unfold put_world. simpl.
    unfold bind at 1. rewrite IH. simpl.
    destruct (settle_each rest draft' w') as [outcomes w'']. simpl.
    unfold ret. now rewrite <- app_assoc.
Qed.

Lemma settle_each_length (files : list File) (draft : OptionalModel.t) (w : World) :
  List.length (fst (settle_each files draft w)) = List.length files.
Proof.
  revert draft w. induction files as [| file rest IH]; intros draft w; simpl.
  - reflexivity.
  - destruct (handlePOST file draft w) as [[outcome draft'] w'].
    specialize (IH draft' w').
    destruct (settle_each rest draft' w') as [outcomes w'']. simpl in *.
    now rewrite IH.
Qed.

Lemma processed_files_uploads (cs : list Call) (files : list File) :
  processed_files cs = [] ->
  processed_files (cs ++ map CallHandlePOST files) = files.
Proof.
  intros Hcs. unfold processed_files in *. rewrite flat_map_app, Hcs. simpl.
  induction files as [| f files IH]; simpl; [reflexivity | now rewrite IH].
Qed.

(** What the handler does with a POST once the three guards have let it
    through. *)
Lemma handler_POST_authorized (s : Session) (req : Request) (w : World) (u : User.t) :
  user_by_email (session_email (Some s)) w = Ok (Some u) ->
  hasRight (mkAction "model" "create") (Some u) None = true ->
  let st := mkSt w [CallUserFindUnique (session_email (Some s));
                    CallFormParse (options_for u)] in
  handler_POST (Some s) req (mkSt w [])
  = match form_parse (options_for u) (parts req) with
    | Throw _ =>
        (Ok (Sent 200 (BodyOk false
                         "Failed to parse your request. Check your model size.")),
         st)
    | Ok formidable =>
        (model <- draft_model u formidable ;;
         results <- allSettled_handlePOST
                      (makeMaybeArrayToArray (files_file formidable)) model ;;
         json (BodyResults results)) st
    end.
Proof.
  intros Hu Hright st. subst st. unfold handler_POST.
  unfold bind at 1. unfold user_findUnique, bind, call, get_world, lift.
  cbn [world calls app]. rewrite Hu, Hright. cbn [negb].
  unfold try_catch, getFormidableFileFromReq, bind, call, lift, ret, json,
    options_for.
  cbn [world calls app].
  destruct (upload_option u) as [o |];
    now destruct (form_parse _ (parts req)).
Qed.


(** C6.  A POST that has passed the three guards and whose multipart
    parse fails, whatever the cause, is answered with status 200 and
    [{ok: false, message}]; the world is left as it was and no file is
    processed. *)
Theorem post_parse_failure (s : Session) (req : Request) (w : World) (u : User.t)
    (e : Exn) :
  method req = Some "POST" ->
  user_by_email (session_email (Some s)) w = Ok (Some u) ->
  hasRight (mkAction "model" "create") (Some u) None = true ->
  form_parse (options_for u) (parts req) = Throw e ->
  fst (run (Some s) req w)
  = Ok (Sent 200 (BodyOk false
                    "Failed to parse your request. Check your model size."))
  /\ world (snd (run (Some s) req w)) = w
  /\ processed_files (calls (snd (run (Some s) req w))) = [].
Proof.
  intros Hm Hu Hright Hparse. unfold run.
  rewrite (handler_POST_dispatch _ _ Hm).
  rewrite (handler_POST_authorized s req w u Hu Hright), Hparse.
  repeat split.
Qed.

(** C1, as amended.  A POST that has passed the three guards, whose
    multipart body parses, and whose [form] field is absent, empty, or
    a text that [JSON.parse] accepts, is answered with status 200 and
    [{results}]: one settled outcome per file, in the order of the
    files, each the outcome of [handlePOST] on that file and the draft.
    Every file is processed exactly once whatever the outcomes of the
    others are, and the world is the one the uploads left, with nothing
    undone. *)
Theorem post_settles_every_file (s : Session) (req : Request) (w : World)
    (u : User.t) (formidable : FormidableResult) (draft : OptionalModel.t) :
  method req = Some "POST" ->
  user_by_email (session_email (Some s)) w = Ok (Some u) ->
  hasRight (mkAction "model" "create") (Some u) None = true ->
  form_parse (options_for u) (parts req) = Ok formidable ->
  drafted u formidable draft ->
  let files := makeMaybeArrayToArray (files_file formidable) in
  let settled := settle_each files draft w in
  fst (run (Some s) req w) = Ok (Sent 200 (BodyResults (fst settled)))
  /\ List.length (fst settled) = List.length files
  /\ processed_files (calls (snd (run (Some s) req w))) = files
  /\ world (snd (run (Some s) req w)) = snd settled.
Proof.
  intros Hm Hu Hright Hparse Hdraft files settled.
  assert (Hdrafted : forall st, draft_model u formidable st = (Ok draft, st)).
  { intros st. unfold draft_model.
    destruct Hdraft as [Hnone | v form Hv Hjson].
    - now rewrite (truthy_absent_or_empty _ Hnone).
    - rewrite (truthy_supplied _ _ Hv). unfold bind, lift. now rewrite Hjson. }
  assert (Hrun : run (Some s) req w
    = (Ok (Sent 200 (BodyResults (fst settled))),
       mkSt (snd settled)
         ([CallUserFindUnique (session_email (Some s));
           CallFormParse (options_for u)] ++ map CallHandlePOST files))).
  { unfold run. rewrite (handler_POST_dispatch _ _ Hm).
    rewrite (handler_POST_authorized s req w u Hu Hright), Hparse.
    unfold bind at 1. rewrite Hdrafted.
    unfold bind at 1. now rewrite allSettled_handlePOST_run. }
  rewrite Hrun. cbn [fst snd world calls].
  repeat split.
  - apply settle_each_length.
  - apply (processed_files_uploads
             [CallUserFindUnique (session_email (Some s)); CallFormParse (options_for u)]).
    reflexivity.
Qed.

(** ** The delete path *)

Lemma model_by_id_exists (id_ : string) (w : World) :
  existsb (fun m => Model.id m =? id_) (models w)
  = match model_by_id id_ w with
    | Some _ => true
    | None => false
    end.
Proof.
  unfold model_by_id. induction (models w) as [| x ms IH]; simpl; [reflexivity |].
  now destruct (Model.id x =? id_).
Qed.

Lemma find_after_delete (id_ : string) (ms : list Model.t) :
  find (fun m => Model.id m =? id_)
    (filter (fun m => negb (Model.id m =? id_)) ms) = None.
Proof.
  induction ms as [| x ms IH]; simpl; [reflexivity |].
  destruct (Model.id x =? id_) eqn:Hx; simpl; [exact IH |].
  now rewrite Hx.
Qed.

Lemma model_delete_run (id_ : string) (st : St) :
  model_delete id_ st
  = match model_by_id id_ (world st) with
    | Some _ =>
        (Ok tt,
         mkSt (mkWorld (filter (fun m => negb (Model.id m =? id_)) (models (world st)))
                 (users (world st)) (objects (world st)))
           (calls st ++ [CallModelDelete id_]))
    | None =>
        (Throw PrismaRecordNotFound, mkSt (world st) (calls st ++ [CallModelDelete id_]))
    end.
Proof.
  unfold model_delete, bind, call, get_world, put_world, throw.
  cbn [world calls]. rewrite model_by_id_exists.
  now destruct (model_by_id id_ (world st)).
Qed.

(** The run of a DELETE up to the authorization check, when the lookup
    of the user returns. *)
Lemma handler_DELETE_checked (session : option Session) (req : Request) (w : World)
    (user : option User.t) (modelId : string) :
  user_by_email (session_email session) w = Ok user ->
  modelId_of (query req) = Some modelId ->
  let st := mkSt w [CallUserFindUnique (session_email session);
                    CallModelFindUnique (QStr modelId)] in
  handler_DELETE session req (mkSt w [])
  = if hasRight (mkAction "model" "delete") user (Some (model_by_id modelId w))
    then
      try_catch
        (call (CallDeleteS3Files modelId) ;;;
         w <- get_world ;;
         objects' <- lift (deleteS3Files modelId (objects w)) ;;
         put_world (mkWorld (models w) (users w) objects') ;;;
         model_delete modelId ;;;
         json (BodyOk true "delete success!"))
        (fun _ => status_json 500 (BodyOk false "Failed while deleting.")) st
    else (Ok (Sent 403 BodyEmpty), st).
Proof.
  intros Hu Hid st. subst st. unfold handler_DELETE.
  unfold bind at 1. unfold user_findUnique, bind, call, get_world, lift.
  cbn [world calls app]. rewrite Hu, Hid.
  unfold model_findUnique, bind, call, get_world, ret. cbn [world calls app].
  now destruct (hasRight _ _ _).
Qed.

(** X18.  A DELETE whose user lookup returns and whose authorization
    check refuses, whether or not a user was found and whether or not the
    target record exists, is answered 403 with an empty body, after the
    two lookups and nothing else: neither the stored objects nor the
    record are deleted, and the world is left as it was. *)
Theorem delete_denied (session : option Session) (req : Request) (w : World)
    (user : option User.t) (modelId : string) :
  method req = Some "DELETE" ->
  user_by_email (session_email session) w = Ok user ->
  modelId_of (query req) = Some modelId ->
  hasRight (mkAction "model" "delete") user (Some (model_by_id modelId w)) = false ->
  run session req w
  = (Ok (Sent 403 BodyEmpty),
     mkSt w [CallUserFindUnique (session_email session);
             CallModelFindUnique (QStr modelId)])
  /\ existsb is_delete (calls (snd (run session req w))) = false
  /\ world (snd (run session req w)) = w.
Proof.
  intros Hm Hu Hid Hdenied.
  assert (Hrun : run session req w
    = (Ok (Sent 403 BodyEmpty),
       mkSt w [CallUserFindUnique (session_email session);
               CallModelFindUnique (QStr modelId)])).
  { unfold run. rewrite (handler_DELETE_dispatch _ _ Hm).
    now rewrite (handler_DELETE_checked session req w user modelId Hu Hid), Hdenied. }
  rewrite Hrun. repeat split.
Qed.

(** C2.  A DELETE with a model id whose authorization check allows (the
    check is reached when the lookup of the user returns, which takes a
    session with an email) first calls the deletion of the stored
    objects, without waiting for it, and then the deletion of the
    record.  When the first call raises, or the record deletion fails,
    the answer is 500 with [{ok: false, message}]; otherwise it is 200
    with [{ok: true, message}], both deletions have been called in that
    order, and the record is gone. *)
Theorem delete_authorized (session : option Session) (req : Request) (w : World)
    (user : option User.t) (modelId : string) :
  method req = Some "DELETE" ->
  user_by_email (session_email session) w = Ok user ->
  modelId_of (query req) = Some modelId ->
  hasRight (mkAction "model" "delete") user (Some (model_by_id modelId w)) = true ->
  let lookups := [CallUserFindUnique (session_email session);
                  CallModelFindUnique (QStr modelId)] in
  let failure := Ok (Sent 500 (BodyOk false "Failed while deleting.")) in
  let success := Ok (Sent 200 (BodyOk true "delete success!")) in
  (forall e,
     deleteS3Files modelId (objects w) = Throw e ->
     run session req w
     = (failure, mkSt w (lookups ++ [CallDeleteS3Files modelId])))
  /\ (forall objects',
        deleteS3Files modelId (objects w) = Ok objects' ->
        model_by_id modelId w = None ->
        run session req w
        = (failure,
           mkSt (mkWorld (models w) (users w) objects')
             (lookups ++ [CallDeleteS3Files modelId; CallModelDelete modelId])))
  /\ (forall objects' m,
        deleteS3Files modelId (objects w) = Ok objects' ->
        model_by_id modelId w = Some m ->
        run session req w
        = (success,
           mkSt (mkWorld (filter (fun x => negb (Model.id x =? modelId)) (models w))
                   (users w) objects')
             (lookups ++ [CallDeleteS3Files modelId; CallModelDelete modelId])))
  /\ (fst (run session req w) = failure \/ fst (run session req w) = success)
  /\ (fst (run session req w) = success ->
      In (CallDeleteS3Files modelId) (calls (snd (run session req w)))
      /\ In (CallModelDelete modelId) (calls (snd (run session req w)))
      /\ model_by_id modelId (world (snd (run session req w))) = None).
Proof.
  intros Hm Hu Hid Hallowed lookups failure success.
  assert (Hrun : run session req w
    = match deleteS3Files modelId (objects w) with
      | Throw _ => (failure, mkSt w (lookups ++ [CallDeleteS3Files modelId]))
      | Ok objects' =>
          match model_by_id modelId w with
          | None =>
              (failure,
               mkSt (mkWorld (models w) (users w) objects')
                 (lookups ++ [CallDeleteS3Files modelId; CallModelDelete modelId]))
          | Some _ =>
              (success,
               mkSt (mkWorld (filter (fun x => negb (Model.id x =? modelId)) (models w))
                       (users w) objects')
                 (lookups ++ [CallDeleteS3Files modelId; CallModelDelete modelId]))
          end
      end).
  { unfold run. rewrite (handler_DELETE_dispatch _ _ Hm).
    rewrite (handler_DELETE_checked session req w user modelId Hu Hid), Hallowed.
    unfold try_catch. unfold bind at 1. unfold call at 1.
    unfold bind at 1. unfold get_world at 1. cbn [world calls].
    unfold bind at 1. unfold lift.
    destruct (deleteS3Files modelId (objects w)) as [objects' | e]; [| reflexivity].
    unfold bind at 1. unfold put_world at 1. cbn [world calls].
    unfold bind at 1. rewrite model_delete_run. cbn [world calls models users objects].
    unfold model_by_id at 1. cbn [models].
    fold (model_by_id modelId w).
    destruct (model_by_id modelId w); reflexivity. }
  rewrite Hrun. repeat split.
  - intros e He. now rewrite He.
  - intros objects' Ho Hnone. now rewrite Ho, Hnone.
  - intros objects' m Ho Hsome. now rewrite Ho, Hsome.
  - destruct (deleteS3Files modelId (objects w)); [| now left].
    destruct (model_by_id modelId w); [now right | now left].
  - destruct (deleteS3Files modelId (objects w)); [| discriminate H].
    destruct (model_by_id modelId w); [| discriminate H].
    cbn. tauto.
  - destruct (deleteS3Files modelId (objects w)); [| discriminate H].
    destruct (model_by_id modelId w); [| discriminate H].
    cbn. tauto.
  - destruct (deleteS3Files modelId (objects w)); [| discriminate H].
    destruct (model_by_id modelId w); [| discriminate H].
    cbn [snd world]. unfold model_by_id. cbn [models].
    apply find_after_delete.
Qed.

End Properties.

(** * The handler on concrete requests *)

(** The two shaping examples of the specification: a row without a
    thumbnail, and the row [42] with the thumbnail [t.png]. *)
Example thumbnailSrc_examples :
  thumbnailSrc (makeModelInfo Demo.apple) = ""
  /\ thumbnailSrc (makeModelInfo Demo.chair) = "/getResource/models/42/t.png".
Proof.
  split; reflexivity.
Qed.

(** The default listing is ordered by creation time, latest first. *)
Example default_listing :
  fst (@run Demo.collab None (Demo.get Demo.no_query) Demo.world0)
  = Ok (Sent 200 (BodyInfos (makeModelInfos [Demo.apple; Demo.chair]))).
Proof.
  reflexivity.
Qed.

(** An administrator's upload is not bound by the size limit. *)
Example admin_upload_unlimited :
  fst (@run Demo.collab (Demo.session_of Demo.alice) Demo.post_huge Demo.world0)
  = Ok (Sent 200 (BodyResults [Fulfilled "m-huge.glb"])).
Proof.
  reflexivity.
Qed.

(** C8: [id=42] finds the chair. *)
Lemma get_by_id_witness :
  method Demo.get_chair = Some "GET"
  /\ Query.id (query Demo.get_chair) = Some (QStr "42")
  /\ "42" <> ""
  /\ fst (@run Demo.collab None Demo.get_chair Demo.world0)
     = Ok (Sent 200 (BodyInfos [makeModelInfo Demo.chair])).
Proof.
  assert (Hm : method Demo.get_chair = Some "GET") by reflexivity.
  assert (Hid : Query.id (query Demo.get_chair) = Some (QStr "42")) by reflexivity.
  assert (Hs : "42" <> "") by discriminate.
  given.
  destruct (@get_by_id Demo.collab None Demo.get_chair Demo.world0 "42" Hm Hid Hs)
    as [_ [_ Hfound]].
  apply Hfound.
  - repeat constructor; simpl; intuition discriminate.
  - left. reflexivity.
  - reflexivity.
Defined.

(** C8, as stated, fails on [id=] (the empty string): the parameter is
    present and no row has that id, yet the answer is not 404 but the
    default listing of all rows. *)
Lemma get_by_empty_id_lists_all :
  method Demo.get_empty_id = Some "GET"
  /\ Query.id (query Demo.get_empty_id) = Some (QStr "")
  /\ (forall m, In m (models Demo.world0) -> Model.id m <> "")
  /\ @run Demo.collab None Demo.get_empty_id Demo.world0
     = (Ok (Sent 200 (BodyInfos (makeModelInfos [Demo.apple; Demo.chair]))),
        mkSt Demo.world0
          [CallModelFindMany None (Some ("createdAt", Some (QStr "desc")))]).
Proof.
  repeat split.
  intros m [<- | [<- | []]]; discriminate.
Qed.

(** C9: [uploader=u-bob&uploader=u-alice] lists the rows of both. *)
Lemma get_by_uploader_witness :
  method Demo.get_two_uploaders = Some "GET"
  /\ absent_or_empty (Query.id (query Demo.get_two_uploaders))
  /\ supplied (Query.uploader (query Demo.get_two_uploaders))
       (QArr ["u-bob"; "u-alice"])
  /\ fst (@run Demo.collab None Demo.get_two_uploaders Demo.world0)
     = Ok (Sent 200 (BodyInfos (makeModelInfos [Demo.chair; Demo.apple]))).
Proof.
  assert (Hm : method Demo.get_two_uploaders = Some "GET") by reflexivity.
  assert (Hid : absent_or_empty (Query.id (query Demo.get_two_uploaders)))
    by (left; reflexivity).
  assert (Hup : supplied (Query.uploader (query Demo.get_two_uploaders))
                  (QArr ["u-bob"; "u-alice"]))
    by (split; [reflexivity | discriminate]).
  given.
  exact (proj1 (@get_by_uploader Demo.collab None Demo.get_two_uploaders
                  Demo.world0 (QArr ["u-bob"; "u-alice"]) Hm Hid Hup)).
Defined.

(** C9, as stated, fails on [uploader=] (the empty string): the
    parameter is present and no row has that uploader id, yet the
    answer is the default listing of all rows, not the empty list. *)
Lemma get_by_empty_uploader_lists_all :
  method Demo.get_empty_uploader = Some "GET"
  /\ Query.id (query Demo.get_empty_uploader) = None
  /\ Query.uploader (query Demo.get_empty_uploader) = Some (QStr "")
  /\ filter (uploaded_by_any [""]) (models Demo.world0) = []
  /\ @run Demo.collab None Demo.get_empty_uploader Demo.world0
     = (Ok (Sent 200 (BodyInfos (makeModelInfos [Demo.apple; Demo.chair]))),
        mkSt Demo.world0
          [CallModelFindMany None (Some ("createdAt", Some (QStr "desc")))]).
Proof.
  repeat split.
Qed.

(** C10: the default listing with and without a session. *)
Lemma get_ignores_session_witness :
  method (Demo.get Demo.no_query) = Some "GET"
  /\ @run Demo.collab (Demo.session_of Demo.alice) (Demo.get Demo.no_query) Demo.world0
     = @run Demo.collab None (Demo.get Demo.no_query) Demo.world0.
Proof.
  assert (Hm : method (Demo.get Demo.no_query) = Some "GET") by reflexivity.
  split; [exact Hm |].
  exact (@get_ignores_session Demo.collab (Demo.session_of Demo.alice) None
           (Demo.get Demo.no_query) Demo.world0 Hm).
Defined.

(** C5: [sort=name&orderBy=asc&filterByName=zzz] matches nothing, and
    the message quotes [zzz]. *)
Lemma get_sorted_no_match_witness :
  method Demo.get_zzz = Some "GET"
  /\ absent_or_empty (Query.id (query Demo.get_zzz))
  /\ absent_or_empty (Query.uploader (query Demo.get_zzz))
  /\ supplied (Query.sort (query Demo.get_zzz)) (QStr "name")
  /\ @findMany_rows Demo.collab (Some (@sort_where Demo.collab (query Demo.get_zzz)))
       (Some (sort_orderBy (QStr "name") (query Demo.get_zzz))) Demo.world0 = Ok []
  /\ fst (@run Demo.collab None Demo.get_zzz Demo.world0)
     = Ok (Sent 404
             (BodyDataRaw []
                (Some ("We couldn't find any matches for " ++ dquote ++ "zzz" ++ dquote)))).
Proof.
  assert (Hm : method Demo.get_zzz = Some "GET") by reflexivity.
  assert (Hid : absent_or_empty (Query.id (query Demo.get_zzz)))
    by (left; reflexivity).
  assert (Hup : absent_or_empty (Query.uploader (query Demo.get_zzz)))
    by (left; reflexivity).
  assert (Hsort : supplied (Query.sort (query Demo.get_zzz)) (QStr "name"))
    by (split; [reflexivity | discriminate]).
  assert (Hrows :
    @findMany_rows Demo.collab (Some (@sort_where Demo.collab (query Demo.get_zzz)))
      (Some (sort_orderBy (QStr "name") (query Demo.get_zzz))) Demo.world0 = Ok [])
    by reflexivity.
  given.
  destruct (@get_sorted_no_match Demo.collab None Demo.get_zzz Demo.world0
              (QStr "name") Hm Hid Hup Hsort Hrows)
    as [message [Hsent [_ [Hname _]]]].
  rewrite Hsent. do 3 f_equal.
  apply (Hname (QStr "zzz")).
  - split; [reflexivity | discriminate].
  - left. reflexivity.
Defined.

(** C5, as stated, fails on empty strings.  With [sort=] the parameter is
    present, neither [id] nor [uploader] is, and the query finds no row,
    yet the answer is 200 with a bare list.  With
    [sort=name&category=food&filterByName=] both [filterByName] and
    [category] are present, yet the message is the one about the
    category alone. *)
Lemma get_sorted_empty_strings :
  (Query.sort (query Demo.get_empty_sort) = Some (QStr "")
   /\ Query.id (query Demo.get_empty_sort) = None
   /\ Query.uploader (query Demo.get_empty_sort) = None
   /\ @run Demo.collab None Demo.get_empty_sort Demo.empty_world
      = (Ok (Sent 200 (BodyInfos [])),
         mkSt Demo.empty_world
           [CallModelFindMany None (Some ("createdAt", Some (QStr "desc")))]))
  /\ (Query.filterByName (query Demo.get_food_empty_filter) = Some (QStr "")
      /\ Query.category (query Demo.get_food_empty_filter) = Some (QStr "food")
      /\ fst (@run Demo.collab None Demo.get_food_empty_filter Demo.empty_world)
         = Ok (Sent 404
                 (BodyDataRaw []
                    (Some ("We couldn't find any matches in " ++ dquote ++ "food"
                           ++ dquote))))).
Proof.
  repeat split.
Qed.


(** C6: a file of 100 MiB and one byte, uploaded by a user without a
    privileged role, exceeds the limit of the parse. *)
Lemma post_parse_failure_witness :
  method Demo.post_huge = Some "POST"
  /\ user_by_email (session_email (Demo.session_of Demo.bob)) Demo.world0
     = Ok (Some Demo.bob)
  /\ @hasRight Demo.collab (mkAction "model" "create") (Some Demo.bob) None = true
  /\ @form_parse Demo.collab (options_for Demo.bob) (parts Demo.post_huge)
     = Throw (Raised "maxFileSize exceeded")
  /\ (fst (@run Demo.collab (Demo.session_of Demo.bob) Demo.post_huge Demo.world0)
      = Ok (Sent 200 (BodyOk false
                        "Failed to parse your request. Check your model size."))
      /\ world (snd (@run Demo.collab (Demo.session_of Demo.bob) Demo.post_huge
                       Demo.world0)) = Demo.world0
      /\ processed_files
           (calls (snd (@run Demo.collab (Demo.session_of Demo.bob) Demo.post_huge
                          Demo.world0))) = []).
Proof.
  assert (Hm : method Demo.post_huge = Some "POST") by reflexivity.
  assert (Hu : user_by_email (session_email (Demo.session_of Demo.bob)) Demo.world0
               = Ok (Some Demo.bob)) by reflexivity.
  assert (Hright : @hasRight Demo.collab (mkAction "model" "create")
                     (Some Demo.bob) None = true) by reflexivity.
  assert (Hparse : @form_parse Demo.collab (options_for Demo.bob)
                     (parts Demo.post_huge)
                   = Throw (Raised "maxFileSize exceeded")) by reflexivity.
  given.
  exact (@post_parse_failure Demo.collab
           (mkSession (Some (mkSessionUser (Some "bob@example.org"))))
           Demo.post_huge Demo.world0 Demo.bob _ Hm Hu Hright Hparse).
Defined.

(** C1: two files under a form that parses; the second file is empty
    and is rejected, the first is stored all the same. *)
Lemma post_settles_every_file_witness :
  method Demo.post_two_files = Some "POST"
  /\ user_by_email (session_email (Demo.session_of Demo.bob)) Demo.world0
     = Ok (Some Demo.bob)
  /\ @hasRight Demo.collab (mkAction "model" "create") (Some Demo.bob) None = true
  /\ @form_parse Demo.collab (options_for Demo.bob) (parts Demo.post_two_files)
     = Ok (mkFormidableResult (Some (QStr Demo.desk_form))
             (Many [Demo.a_glb; Demo.b_glb]))
  /\ @JSON_parse Demo.collab Demo.desk_form = Ok [("name", "desk")]
  /\ fst (@run Demo.collab (Demo.session_of Demo.bob) Demo.post_two_files Demo.world0)
     = Ok (Sent 200 (BodyResults [Fulfilled "m-a.glb"; Rejected "empty file"]))
  /\ processed_files
       (calls (snd (@run Demo.collab (Demo.session_of Demo.bob) Demo.post_two_files
                      Demo.world0)))
     = [Demo.a_glb; Demo.b_glb].
Proof.
  assert (Hm : method Demo.post_two_files = Some "POST") by reflexivity.
  assert (Hu : user_by_email (session_email (Demo.session_of Demo.bob)) Demo.world0
               = Ok (Some Demo.bob)) by reflexivity.
  assert (Hright : @hasRight Demo.collab (mkAction "model" "create")
                     (Some Demo.bob) None = true) by reflexivity.
  assert (Hparse : @form_parse Demo.collab (options_for Demo.bob)
                     (parts Demo.post_two_files)
                   = Ok (mkFormidableResult (Some (QStr Demo.desk_form))
                           (Many [Demo.a_glb; Demo.b_glb]))) by reflexivity.
  assert (Hjson : @JSON_parse Demo.collab Demo.desk_form = Ok [("name", "desk")])
    by reflexivity.
  given.
  assert (Hdraft : @drafted Demo.collab Demo.bob
            (mkFormidableResult (Some (QStr Demo.desk_form))
               (Many [Demo.a_glb; Demo.b_glb]))
            (Demo.merge
               (OptionalModel.set_userId "u-bob" OptionalModel.empty)
               (Demo.model_of_form [("name", "desk")]))).
  { apply (@drafted_form Demo.collab Demo.bob _ (QStr Demo.desk_form)
             [("name", "desk")]).
    - split; [reflexivity | discriminate].
    - exact Hjson. }
  destruct (@post_settles_every_file Demo.collab
              (mkSession (Some (mkSessionUser (Some "bob@example.org"))))
              Demo.post_two_files Demo.world0 Demo.bob _ _ Hm Hu Hright Hparse Hdraft)
    as [Hsent [_ [Hfiles _]]].
  split; [exact Hsent | exact Hfiles].
Defined.

(** C1, as stated, fails when the [form] field is not JSON: the three
    guards pass and the multipart body parses, yet [JSON.parse] raises
    on the text [{], no response is sent by the handler and no file is
    processed. *)
Lemma post_broken_form_raises :
  method Demo.post_broken_form = Some "POST"
  /\ user_by_email (session_email (Demo.session_of Demo.bob)) Demo.world0
     = Ok (Some Demo.bob)
  /\ @hasRight Demo.collab (mkAction "model" "create") (Some Demo.bob) None = true
  /\ @form_parse Demo.collab (options_for Demo.bob) (parts Demo.post_broken_form)
     = Ok (mkFormidableResult (Some (QStr "{")) (Single Demo.a_glb))
  /\ @run Demo.collab (Demo.session_of Demo.bob) Demo.post_broken_form Demo.world0
     = (Throw SyntaxError,
        mkSt Demo.world0
          [CallUserFindUnique (Some "bob@example.org");
           CallFormParse default_options]).
Proof.
  repeat split.
Qed.

(** X18: a user who is neither an administrator nor the uploader is
    refused, and so is a session whose email finds no user. *)
Lemma delete_denied_witness :
  method (Demo.delete (Some (QStr "7"))) = Some "DELETE"
  /\ user_by_email (session_email (Demo.session_of Demo.bob)) Demo.world0
     = Ok (Some Demo.bob)
  /\ user_by_email (session_email Demo.unknown_session) Demo.world0 = Ok None
  /\ modelId_of (query (Demo.delete (Some (QStr "7")))) = Some "7"
  /\ @hasRight Demo.collab (mkAction "model" "delete") (Some Demo.bob)
       (Some (model_by_id "7" Demo.world0)) = false
  /\ @hasRight Demo.collab (mkAction "model" "delete") None
       (Some (model_by_id "7" Demo.world0)) = false
  /\ @run Demo.collab (Demo.session_of Demo.bob) (Demo.delete (Some (QStr "7")))
       Demo.world0
     = (Ok (Sent 403 BodyEmpty),
        mkSt Demo.world0
          [CallUserFindUnique (Some "bob@example.org");
           CallModelFindUnique (QStr "7")])
  /\ @run Demo.collab Demo.unknown_session (Demo.delete (Some (QStr "7")))
       Demo.world0
     = (Ok (Sent 403 BodyEmpty),
        mkSt Demo.world0
          [CallUserFindUnique (Some "nobody@example.org");
           CallModelFindUnique (QStr "7")]).
Proof.
  assert (Hm : method (Demo.delete (Some (QStr "7"))) = Some "DELETE")
    by reflexivity.
  assert (Hbob : user_by_email (session_email (Demo.session_of Demo.bob)) Demo.world0
                 = Ok (Some Demo.bob)) by reflexivity.
  assert (Hnobody : user_by_email (session_email Demo.unknown_session) Demo.world0
                    = Ok None) by reflexivity.
  assert (Hid : modelId_of (query (Demo.delete (Some (QStr "7")))) = Some "7")
    by reflexivity.
  assert (Hdenied : @hasRight Demo.collab (mkAction "model" "delete") (Some Demo.bob)
            (Some (model_by_id "7" Demo.world0)) = false) by reflexivity.
  assert (Hnone : @hasRight Demo.collab (mkAction "model" "delete") None
            (Some (model_by_id "7" Demo.world0)) = false) by reflexivity.
  given. split.
  - exact (proj1 (@delete_denied Demo.collab (Demo.session_of Demo.bob)
                    (Demo.delete (Some (QStr "7"))) Demo.world0 (Some Demo.bob) "7"
                    Hm Hbob Hid Hdenied)).
  - exact (proj1 (@delete_denied Demo.collab Demo.unknown_session
                    (Demo.delete (Some (QStr "7"))) Demo.world0 None "7"
                    Hm Hnobody Hid Hnone)).
Defined.

(** C3, as stated, fails on a DELETE without a session, for which the
    authorization helper would refuse: the lookup of the user is made
    with an [undefined] email and raises, so the handler sends no 403.
    Nothing is deleted and the world is left as it was. *)
Lemma delete_without_session_raises :
  method (Demo.delete (Some (QStr "7"))) = Some "DELETE"
  /\ session_email None = None
  /\ @hasRight Demo.collab (mkAction "model" "delete") None
       (Some (model_by_id "7" Demo.world0)) = false
  /\ @run Demo.collab None (Demo.delete (Some (QStr "7"))) Demo.world0
     = (Throw PrismaValidationError,
        mkSt Demo.world0 [CallUserFindUnique None]).
Proof.
  repeat split.
Qed.

(** C2: the uploader deletes the chair; with the object store down the
    same request is answered 500 and the record is kept. *)
Lemma delete_authorized_witness :
  method (Demo.delete (Some (QStr "42"))) = Some "DELETE"
  /\ user_by_email (session_email (Demo.session_of Demo.bob)) Demo.world0
     = Ok (Some Demo.bob)
  /\ modelId_of (query (Demo.delete (Some (QStr "42")))) = Some "42"
  /\ @hasRight Demo.collab (mkAction "model" "delete") (Some Demo.bob)
       (Some (model_by_id "42" Demo.world0)) = true
  /\ @run Demo.collab (Demo.session_of Demo.bob) (Demo.delete (Some (QStr "42")))
       Demo.world0
     = (Ok (Sent 200 (BodyOk true "delete success!")),
        mkSt (mkWorld [Demo.apple] (users Demo.world0) ["models/7/apple.glb"])
          [CallUserFindUnique (Some "bob@example.org");
           CallModelFindUnique (QStr "42");
           CallDeleteS3Files "42"; CallModelDelete "42"])
  /\ @run Demo.storage_down (Demo.session_of Demo.bob)
       (Demo.delete (Some (QStr "42"))) Demo.world0
     = (Ok (Sent 500 (BodyOk false "Failed while deleting.")),
        mkSt Demo.world0
          [CallUserFindUnique (Some "bob@example.org");
           CallModelFindUnique (QStr "42");
           CallDeleteS3Files "42"]).
Proof.
  assert (Hm : method (Demo.delete (Some (QStr "42"))) = Some "DELETE")
    by reflexivity.
  assert (Hu : user_by_email (session_email (Demo.session_of Demo.bob)) Demo.world0
               = Ok (Some Demo.bob)) by reflexivity.
  assert (Hid : modelId_of (query (Demo.delete (Some (QStr "42")))) = Some "42")
    by reflexivity.
  assert (Hbob : @hasRight Demo.collab (mkAction "model" "delete") (Some Demo.bob)
            (Some (model_by_id "42" Demo.world0)) = true) by reflexivity.
  given. split.
  - apply (proj1 (proj2 (proj2
      (@delete_authorized Demo.collab (Demo.session_of Demo.bob)
         (Demo.delete (Some (QStr "42"))) Demo.world0 (Some Demo.bob) "42"
         Hm Hu Hid Hbob)))
      ["models/7/apple.glb"] Demo.chair); reflexivity.
  - apply (proj1
      (@delete_authorized Demo.storage_down (Demo.session_of Demo.bob)
         (Demo.delete (Some (QStr "42"))) Demo.world0 (Some Demo.bob) "42"
         Hm Hu Hid Hbob)
      (Raised "storage unreachable")); reflexivity.
Defined.

(** * Further properties of the handler *)

Section Further.
Context {collab : Collaborators}.

(** ** Runs of the three branches *)

Lemma allowedMethod_includes (m : string) :
  existsb (String.eqb m) allowedMethod = true <-> In m allowedMethod.
Proof.
  rewrite existsb_exists. split.
  - intros [x [Hin Heq]]. apply String.eqb_eq in Heq. now subst.
  - intros Hin. exists m. split; [exact Hin | apply String.eqb_refl].
Qed.

(** A GET makes one read of the database and answers 200 or 404, or
    raises; the world stays as it is. *)
Lemma handler_GET_reads (req : Request) (w : World) :
  exists c res,
    handler_GET req (mkSt w []) = (res, mkSt w [c])
    /\ is_read c = true
    /\ (forall r, res = Ok r -> exists n b, r = Sent n b /\ (n = 200 \/ n = 404)%Z).
Proof.
  unfold handler_GET.
  destruct (truthy (Query.id (query req))) as [[s | l] |].
  - unfold bind, model_findUnique, bind, call, get_world, ret. cbn [world calls app].
    destruct (model_by_id s w); do 2 eexists; (split; [reflexivity |]);
      (split; [reflexivity |]); intros r [= <-]; eauto.
  - unfold bind, model_findUnique, bind, call, throw. cbn [world calls app].
    do 2 eexists. split; [reflexivity |]. split; [reflexivity |]. discriminate.
  - destruct (truthy (Query.uploader (query req))) as [v |].
    + unfold bind, model_findMany, bind, call, get_world, lift, json, ret,
        findMany_rows, order_rows. cbn [world calls app].
      do 2 eexists. split; [reflexivity |]. split; [reflexivity |].
      intros r [= <-]. eauto.
    + destruct (truthy (Query.sort (query req))) as [sort |].
      * unfold bind at 1. unfold model_findMany, bind, call, get_world, lift.
        cbn -[findMany_rows].
        destruct (findMany_rows _ _ w) as [[| x rows] | e];
          do 2 eexists; (split; [reflexivity |]); (split; [reflexivity |]);
          try discriminate; intros r [= <-]; eauto.
      * unfold bind, model_findMany, bind, call, get_world, lift, status_json, ret.
        cbn. do 2 eexists. split; [reflexivity |]. split; [reflexivity |].
        intros r [= <-]. eauto.
Qed.

Lemma draft_model_state (u : User.t) (formidable : FormidableResult) (st : St) :
  snd (draft_model u formidable st) = st.
Proof.
  unfold draft_model. destruct (truthy (fields_form formidable)) as [v |];
    [| reflexivity].
  unfold bind, lift. now destruct (JSON_parse (toString v)).
Qed.

Lemma uploads_delete_nothing (cs : list Call) (files : list File) :
  existsb is_delete cs = false ->
  existsb is_delete (cs ++ map CallHandlePOST files) = false.
Proof.
  intros Hcs. rewrite existsb_app, Hcs. simpl.
  induction files as [| f files IH]; simpl; [reflexivity | exact IH].
Qed.

(** A POST that has passed the guards calls the parser, then processes
    some of the files, and answers 200 when it answers. *)
Lemma handler_POST_allowed_run (s : Session) (req : Request) (w : World) (u : User.t) :
  user_by_email (session_email (Some s)) w = Ok (Some u) ->
  hasRight (mkAction "model" "create") (Some u) None = true ->
  exists res w' files,
    handler_POST (Some s) req (mkSt w [])
    = (res,
       mkSt w' ([CallUserFindUnique (session_email (Some s));
                 CallFormParse (options_for u)] ++ map CallHandlePOST files))
    /\ (forall r, res = Ok r -> exists b, r = Sent 200 b).
Proof.
  intros Hu Hright.
  rewrite (handler_POST_authorized s req w u Hu Hright).
  destruct (form_parse (options_for u) (parts req)) as [formidable | e].
  - unfold bind at 1.
    pose proof (draft_model_state u formidable
      (mkSt w [CallUserFindUnique (session_email (Some s));
               CallFormParse (options_for u)])) as Hst.
    destruct (draft_model u formidable _) as [[draft | e] st]; simpl in Hst; subst st.
    + unfold bind at 1. rewrite allSettled_handlePOST_run. unfold json, ret.
      cbn [world calls].
      do 3 eexists. split; [reflexivity |]. intros r [= <-]. eauto.
    + exists (Throw e), w, []. split; [reflexivity | discriminate].
  - exists (Ok (Sent 200 (BodyOk false
              "Failed to parse your request. Check your model size."))), w, [].
    split; [reflexivity |]. intros r [= <-]. eauto.
Qed.

(** A POST that does not pass the guards answers 401 or 403, or raises
    in the user lookup, after at most that lookup. *)
Lemma handler_POST_refused_run (session : option Session) (req : Request) (w : World) :
  ~ may_create session w ->
  exists res cs,
    handler_POST session req (mkSt w []) = (res, mkSt w cs)
    /\ (forall r, res = Ok r -> exists n b, r = Sent n b /\ (n = 401 \/ n = 403)%Z)
    /\ processed_files cs = []
    /\ existsb is_delete cs = false.
Proof.
  intros Hno. unfold handler_POST. destruct session as [s |].
  - unfold bind, user_findUnique, bind, call, get_world, lift.
    cbn [world calls app].
    destruct (user_by_email (session_email (Some s)) w) as [[u |] | e] eqn:Hu.
    + destruct (hasRight (mkAction "model" "create") (Some u) None) eqn:Hright.
      * elim Hno. exists s, u. repeat split; assumption.
      * cbn [negb]. do 2 eexists. split; [reflexivity |].
        split; [| split; reflexivity].
        intros r [= <-]. do 2 eexists. split; [reflexivity | now right].
    + do 2 eexists. split; [reflexivity |]. split; [| split; reflexivity].
      intros r [= <-]. do 2 eexists. split; [reflexivity | now left].
    + do 2 eexists. split; [reflexivity |]. split; [| split; reflexivity].
      discriminate.
  - do 2 eexists. split; [reflexivity |]. split; [| split; reflexivity].
    intros r [= <-]. do 2 eexists. split; [reflexivity | now left].
Qed.

(** The deletions of an authorized DELETE, from the state the lookups
    left. *)
Lemma delete_sequence_run (modelId : string) (w : World) (cs : list Call) :
  try_catch
    (call (CallDeleteS3Files modelId) ;;;
     w <- get_world ;;
     objects' <- lift (deleteS3Files modelId (objects w)) ;;
     put_world (mkWorld (models w) (users w) objects') ;;;
     model_delete modelId ;;;
     json (BodyOk true "delete success!"))
    (fun _ => status_json 500 (BodyOk false "Failed while deleting."))
    (mkSt w cs)
  = match deleteS3Files modelId (objects w) with
    | Throw _ =>
        (Ok (Sent 500 (BodyOk false "Failed while deleting.")),
         mkSt w (cs ++ [CallDeleteS3Files modelId]))
    | Ok objects' =>
        match model_by_id modelId w with
        | None =>
            (Ok (Sent 500 (BodyOk false "Failed while deleting.")),
             mkSt (mkWorld (models w) (users w) objects')
               ((cs ++ [CallDeleteS3Files modelId]) ++ [CallModelDelete modelId]))
        | Some _ =>
            (Ok (Sent 200 (BodyOk true "delete success!")),
             mkSt (mkWorld (filter (fun x => negb (Model.id x =? modelId)) (models w))
                     (users w) objects')
               ((cs ++ [CallDeleteS3Files modelId]) ++ [CallModelDelete modelId]))
        end
    end.
Proof.
  unfold try_catch. unfold bind at 1. unfold call at 1.
  unfold bind at 1. unfold get_world at 1. cbn [world calls].
  unfold bind at 1. unfold lift.
  destruct (deleteS3Files modelId (objects w)) as [objects' | e]; [| reflexivity].
  unfold bind at 1. unfold put_world at 1. cbn [world calls].
  unfold bind at 1. rewrite model_delete_run. cbn [world calls models users objects].
  unfold model_by_id at 1. cbn [models]. fold (model_by_id modelId w).
  destruct (model_by_id modelId w); reflexivity.
Qed.

Lemma handler_DELETE_no_id (session : option Session) (req : Request) (w : World)
    (user : option User.t) :
  user_by_email (session_email session) w = Ok user ->
  modelId_of (query req) = None ->
  handler_DELETE session req (mkSt w [])
  = (Ok (Sent 400 (BodyError "model id query not found")),
     mkSt w [CallUserFindUnique (session_email session)]).
Proof.
  intros Hu Hid. unfold handler_DELETE.
  unfold bind, user_findUnique, bind, call, get_world, lift. cbn [world calls app].
  now rewrite Hu, Hid.
Qed.

Lemma handler_DELETE_lookup_raises (session : option Session) (req : Request)
    (w : World) (e : Exn) :
  user_by_email (session_email session) w = Throw e ->
  handler_DELETE session req (mkSt w [])
  = (Throw e, mkSt w [CallUserFindUnique (session_email session)]).
Proof.
  intros Hu. unfold handler_DELETE.
  unfold bind, user_findUnique, bind, call, get_world, lift. cbn [world calls app].
  now rewrite Hu.
Qed.

Lemma no_model_id_spec (q : Query.t) :
  no_model_id (Query.id q) <-> modelId_of q = None.
Proof.
  unfold no_model_id, modelId_of, truthy_str. split.
  - intros [-> | [-> | [-> | [rest ->]]]]; reflexivity.
  - destruct (Query.id q) as [[s | [| x rest]] |]; simpl.
    + destruct (String.eqb_spec s "") as [-> | _]; [auto | discriminate].
    + auto.
    + destruct (String.eqb_spec x "") as [-> | _]; [| discriminate].
      intros _. do 3 right. now exists rest.
    + auto.
Qed.

Lemma is_read_not_delete (c : Call) :
  is_read c = true -> is_delete c = false /\ processed_files [c] = [].
Proof.
  destruct c; simpl; intros H; try discriminate H; split; reflexivity.
Qed.

(** Closes the shape of a run that ends in the world it started from
    and has made no deletion and no upload. *)
Ltac quiet_run :=
  do 3 eexists; split; [reflexivity |];
  split; [intros ? [= <-]; do 2 eexists; split; [reflexivity | cbn; tauto] |];
  split; [cbn; intros H; discriminate H |];
  split; [cbn; intros H; now elim H |];
  intros H; now elim H.

(** The same for a run that raises. *)
Ltac raised_run :=
  do 3 eexists; split; [reflexivity |];
  split; [intros ? H; discriminate H |];
  split; [cbn; intros H; discriminate H |];
  split; [cbn; intros H; now elim H |];
  intros H; now elim H.

(** Every run: the state it ends in, the status it may send, and what
    must hold of the request when something was deleted, uploaded or
    changed. *)
Lemma run_shape (session : option Session) (req : Request) (w : World) :
  exists res w' cs,
    run session req w = (res, mkSt w' cs)
    /\ (forall r, res = Ok r -> exists n b, r = Sent n b /\ In n status_codes)
    /\ (existsb is_delete cs = true ->
        method req = Some "DELETE" /\ may_delete session req w)
    /\ (processed_files cs <> [] ->
        method req = Some "POST" /\ may_create session w)
    /\ (w' <> w ->
        (method req = Some "POST" /\ may_create session w)
        \/ (method req = Some "DELETE" /\ may_delete session req w)).
Proof.
  unfold run, handler, method_is.
  destruct (method req) as [m |] eqn:Hm; [| cbn; quiet_run].
  cbn [existsb allowedMethod].
  destruct (m =? "GET") eqn:Hget.
  { cbn [orb negb]. destruct (handler_GET_reads req w) as [c [res [Hrun [Hc Hres]]]].
    exists res, w, [c]. destruct (is_read_not_delete c Hc) as [Hd Hp].
    split; [exact Hrun |].
    split; [| split; [| split]].
    - intros r Hr. destruct (Hres r Hr) as [n [b [-> [-> | ->]]]];
        do 2 eexists; (split; [reflexivity |]); cbn; tauto.
    - cbn. rewrite Hd. intros H. discriminate H.
    - intros H. now elim H.
    - intros H. now elim H. }
  destruct (m =? "POST") eqn:Hpost.
  { cbn [orb negb]. apply String.eqb_eq in Hpost. subst m.
    assert (Hdec : may_create session w \/ ~ may_create session w).
    { destruct session as [s |]; [| right; intros [s [u [H _]]]; discriminate H].
      destruct (user_by_email (session_email (Some s)) w) as [u |] eqn:Hu;
        [| right; intros [s' [u' [_ [H _]]]]; congruence ].
      destruct u as [u |]; [| right; intros [s' [u' [_ [H _]]]]; congruence ].
      destruct (hasRight (mkAction "model" "create") (Some u) None) eqn:Hr.
      - left. exists s, u. repeat split; assumption.
      - right. intros [s' [u' [_ [H1 H2]]]]. congruence. }
    destruct Hdec as [Hyes | Hno].
    - pose proof Hyes as [s [u [-> [Hu Hright]]]].
      destruct (handler_POST_allowed_run s req w u Hu Hright)
        as [res [w' [files [Hrun Hres]]]].
      do 3 eexists. split; [exact Hrun |].
      split; [| split; [| split]].
      + intros r Hr. destruct (Hres r Hr) as [b ->].
        do 2 eexists. split; [reflexivity |]. cbn. tauto.
      + rewrite uploads_delete_nothing by reflexivity. intros H. discriminate H.
      + intros _. now split.
      + intros _. left. now split.
    - destruct (handler_POST_refused_run session req w Hno)
        as [res [cs [Hrun [Hn [Hp Hd]]]]].
      exists res, w, cs. split; [exact Hrun |].
      split; [| split; [| split]].
      + intros r Hr. destruct (Hn r Hr) as [n [b [-> Hn']]].
        do 2 eexists. split; [reflexivity |].
        destruct Hn' as [-> | ->]; cbn; tauto.
      + rewrite Hd. intros H. discriminate H.
      + intros H. now elim H.
      + intros H. now elim H. }
  destruct (m =? "DELETE") eqn:Hdel; [| cbn; quiet_run].
  cbn [orb negb]. apply String.eqb_eq in Hdel. subst m.
  destruct (user_by_email (session_email session) w) as [user | e] eqn:Hu;
    [| rewrite (handler_DELETE_lookup_raises session req w e Hu); raised_run].
  destruct (modelId_of (query req)) as [modelId |] eqn:Hid.
  - rewrite (handler_DELETE_checked session req w user modelId Hu Hid).
    destruct (hasRight (mkAction "model" "delete") _ _) eqn:Hright;
      [| quiet_run].
    assert (Hyes : may_delete session req w)
      by (exists modelId, user; repeat split; assumption).
    rewrite delete_sequence_run.
    destruct (deleteS3Files modelId (objects w)) as [objects' | e];
      [destruct (model_by_id modelId w) |];
      do 3 eexists; (split; [reflexivity |]);
      (split; [intros ? [= <-]; do 2 eexists; split; [reflexivity | cbn; tauto] |]);
      (split; [intros _; now split |]);
      (split; [cbn; intros H; now elim H |]);
      intros _; right; now split.
  - rewrite (handler_DELETE_no_id session req w user Hu Hid). quiet_run.
Qed.

(** ** Dispatch *)

(** X1.  A request whose method is none of GET, POST and DELETE (a
    missing method included) is answered 405 with an empty body; no
    collaborator is called and the world stays as it is. *)
Theorem method_not_allowed (session : option Session) (req : Request) (w : World) :
  ~ In (match method req with Some m => m | None => "" end) allowedMethod ->
  run session req w = (Ok (Sent 405 BodyEmpty), mkSt w []).
Proof.
  intros Hnot. unfold run, handler.
  destruct (existsb _ allowedMethod) eqn:Hex; [| reflexivity].
  apply allowedMethod_includes in Hex. contradiction.
Qed.

(** X2.  Whenever the handler returns it has sent a response, and the
    status of the response is one of 200, 400, 401, 403, 404, 405 and
    500. *)
Theorem handler_status_codes (session : option Session) (req : Request) (w : World)
    (r : Response) (st : St) :
  run session req w = (Ok r, st) ->
  exists n b, r = Sent n b /\ In n status_codes.
Proof.
  intros Hrun.
  destruct (run_shape session req w) as [res [w' [cs [Hshape [Hcodes _]]]]].
  rewrite Hshape in Hrun. injection Hrun as Hres _.
  now apply Hcodes.
Qed.

(** ** The read path *)

(** X3.  A GET makes exactly one call, a read of the model table, and
    leaves the world as it is, whether it answers or raises. *)
Theorem get_read_only (session : option Session) (req : Request) (w : World) :
  method req = Some "GET" ->
  exists c, snd (run session req w) = mkSt w [c] /\ is_read c = true.
Proof.
  intros Hm. unfold run. rewrite (handler_GET_dispatch _ _ Hm).
  destruct (handler_GET_reads req w) as [c [res [Hrun [Hc _]]]].
  exists c. now rewrite Hrun.
Qed.

(** X4.  The branches of a GET are tried in the order id, uploader: the
    run of a GET with a non-empty [id] depends on no other parameter,
    and the run of a GET with an absent or empty [id] and a non-empty
    [uploader] depends on no parameter but [uploader]. *)
Theorem get_branch_priority (session session' : option Session) (req req' : Request)
    (w : World) :
  method req = Some "GET" ->
  method req' = Some "GET" ->
  (exists v, supplied (Query.id (query req)) v /\ Query.id (query req') = Some v)
  \/ (absent_or_empty (Query.id (query req))
      /\ absent_or_empty (Query.id (query req'))
      /\ exists v, supplied (Query.uploader (query req)) v
                   /\ Query.uploader (query req') = Some v) ->
  run session req w = run session' req' w.
Proof.
  intros Hm Hm' Hsame. unfold run.
  rewrite (handler_GET_dispatch _ _ Hm), (handler_GET_dispatch _ _ Hm').
  unfold handler_GET.
  destruct Hsame as [[v [Hv Hv']] | [Hid [Hid' [v [Hv Hv']]]]].
  - assert (Hv2 : supplied (Query.id (query req')) v) by (split; [exact Hv' | apply Hv]).
    now rewrite (truthy_supplied _ _ Hv), (truthy_supplied _ _ Hv2).
  - assert (Hv2 : supplied (Query.uploader (query req')) v)
      by (split; [exact Hv' | apply Hv]).
    now rewrite (truthy_absent_or_empty _ Hid), (truthy_absent_or_empty _ Hid'),
      (truthy_supplied _ _ Hv), (truthy_supplied _ _ Hv2).
Qed.

Lemma handler_GET_sorted (req : Request) (w : World) (sort : QVal) :
  absent_or_empty (Query.id (query req)) ->
  absent_or_empty (Query.uploader (query req)) ->
  supplied (Query.sort (query req)) sort ->
  handler_GET req (mkSt w [])
  = let st := mkSt w [CallModelFindMany (Some (sort_where (query req)))
                        (Some (sort_orderBy sort (query req)))] in
    match findMany_rows (Some (sort_where (query req)))
            (Some (sort_orderBy sort (query req))) w with
    | Ok [] => (Ok (Sent 404 (BodyDataRaw [] (errorMessage (query req)))), st)
    | Ok (r :: rows) =>
        (Ok (Sent 200 (BodyData (makeModelInfos (r :: rows)) None)), st)
    | Throw e => (Throw e, st)
    end.
Proof.
  intros Hid Hup Hsort. unfold handler_GET.
  rewrite (truthy_absent_or_empty _ Hid), (truthy_absent_or_empty _ Hup),
    (truthy_supplied _ _ Hsort).
  unfold bind at 1. unfold model_findMany, bind, call, get_world, lift.
  cbn -[findMany_rows].
  now destruct (findMany_rows _ _ w) as [[| r rows] | e].
Qed.

(** X5.  A sorted GET whose query finds rows is answered 200 with
    [{data, error}]: [data] is the shaped list of the rows, in the
    order the database gave them, and [error] is [undefined]. *)
Theorem get_sorted_matches (session : option Session) (req : Request) (w : World)
    (sort : QVal) (r : Model.t) (rows : list Model.t) :
  method req = Some "GET" ->
  absent_or_empty (Query.id (query req)) ->
  absent_or_empty (Query.uploader (query req)) ->
  supplied (Query.sort (query req)) sort ->
  findMany_rows (Some (sort_where (query req)))
    (Some (sort_orderBy sort (query req))) w = Ok (r :: rows) ->
  run session req w
  = (Ok (Sent 200 (BodyData (makeModelInfos (r :: rows)) None)),
     mkSt w [CallModelFindMany (Some (sort_where (query req)))
               (Some (sort_orderBy sort (query req)))]).
Proof.
  intros Hm Hid Hup Hsort Hrows. unfold run.
  rewrite (handler_GET_dispatch _ _ Hm), (handler_GET_sorted req w sort Hid Hup Hsort).
  cbv zeta. now rewrite Hrows.
Qed.

(** X6.  A sorted GET whose query the database refuses is not answered:
    the error of the query is raised by the handler, after that one
    call. *)
Theorem get_sorted_query_error (session : option Session) (req : Request) (w : World)
    (sort : QVal) (e : Exn) :
  method req = Some "GET" ->
  absent_or_empty (Query.id (query req)) ->
  absent_or_empty (Query.uploader (query req)) ->
  supplied (Query.sort (query req)) sort ->
  findMany_rows (Some (sort_where (query req)))
    (Some (sort_orderBy sort (query req))) w = Throw e ->
  run session req w
  = (Throw e,
     mkSt w [CallModelFindMany (Some (sort_where (query req)))
               (Some (sort_orderBy sort (query req)))]).
Proof.
  intros Hm Hid Hup Hsort Hrows. unfold run.
  rewrite (handler_GET_dispatch _ _ Hm), (handler_GET_sorted req w sort Hid Hup Hsort).
  cbv zeta. now rewrite Hrows.
Qed.

Lemma includes_In (x : string) (l : list string) :
  existsb (String.eqb x) l = true <-> In x l.
Proof.
  rewrite existsb_exists. split.
  - intros [y [Hin Heq]]. apply String.eqb_eq in Heq. now subst.
  - intros Hin. exists x. split; [exact Hin | apply String.eqb_refl].
Qed.

(** X7.  The [category] of a sorted GET restricts the query only when
    it is one of the known categories: then a row must also carry the
    category in upper case; a category that is not known is left out of
    the query, which is the one of the request without a category. *)
Theorem category_filter (q : Query.t) (c : QVal) (m : Model.t) :
  supplied (Query.category q) c ->
  (In (toString c) Categories ->
   matches (sort_where q) m
   = matches (sort_where (without_category q)) m
     && (Model.category m =? toUpperCase (toString c)))
  /\ (~ In (toString c) Categories ->
      sort_where q = sort_where (without_category q)).
Proof.
  intros Hc. unfold sort_where. rewrite (truthy_supplied _ _ Hc). cbn.
  split; intros Hin.
  - apply includes_In in Hin. now rewrite Hin.
  - destruct (existsb _ Categories) eqn:Hex; [| reflexivity].
    apply includes_In in Hex. contradiction.
Qed.

(** ** The default listing *)

Lemma insert_by_createdAt_perm (desc : bool) (m : Model.t) (l : list Model.t) :
  Permutation (insert_by_createdAt desc m l) (m :: l).
Proof.
  induction l as [| x l IH]; simpl; [apply Permutation_refl |].
  destruct (if desc then _ else _); [apply Permutation_refl |].
  apply perm_trans with (x :: m :: l); [now apply perm_skip | apply perm_swap].
Qed.

Lemma sort_by_createdAt_perm (desc : bool) (l : list Model.t) :
  Permutation (sort_by_createdAt desc l) l.
Proof.
  unfold sort_by_createdAt. induction l as [| x l IH]; simpl; [constructor |].
  apply perm_trans with (x :: fold_right (insert_by_createdAt desc) [] l);
    [apply insert_by_createdAt_perm | now apply perm_skip].
Qed.

Lemma insert_newer_first (m : Model.t) (l : list Model.t) :
  Sorted newer_first l -> Sorted newer_first (insert_by_createdAt true m l).
Proof.
  induction l as [| x l IH]; intros Hs; simpl.
  - repeat constructor.
  - destruct (Z.ltb_spec (Model.createdAt x) (Model.createdAt m)) as [Hlt | Hge].
    + constructor; [exact Hs |]. constructor. unfold newer_first. lia.
    + inversion Hs as [| ? ? Hs' Hhd]; subst.
      constructor; [now apply IH |].
      destruct l as [| y l]; simpl.
      * constructor. unfold newer_first. lia.
      * destruct (Z.ltb_spec (Model.createdAt y) (Model.createdAt m));
          constructor; [unfold newer_first; lia | now inversion Hhd].
Qed.

Lemma sort_newer_first (l : list Model.t) :
  StronglySorted newer_first (sort_by_createdAt true l).
Proof.
  apply Sorted_StronglySorted.
  - intros a b c Hab Hbc. unfold newer_first in *. lia.
  - unfold sort_by_createdAt. induction l as [| x l IH]; simpl;
      [constructor | now apply insert_newer_first].
Qed.

(** X8.  A GET with none of [id], [uploader] and [sort] (each absent or
    empty) is answered 200 with the bare shaped list of all rows of the
    table, each once, the latest created first. *)
Theorem get_default_listing (session : option Session) (req : Request) (w : World) :
  method req = Some "GET" ->
  absent_or_empty (Query.id (query req)) ->
  absent_or_empty (Query.uploader (query req)) ->
  absent_or_empty (Query.sort (query req)) ->
  exists rows,
    run session req w
    = (Ok (Sent 200 (BodyInfos (makeModelInfos rows))),
       mkSt w [CallModelFindMany None (Some ("createdAt", Some (QStr "desc")))])
    /\ Permutation rows (models w)
    /\ StronglySorted newer_first rows.
Proof.
  intros Hm Hid Hup Hsort. exists (sort_by_createdAt true (models w)).
  split; [| split].
  - unfold run. rewrite (handler_GET_dispatch _ _ Hm). unfold handler_GET.
    now rewrite (truthy_absent_or_empty _ Hid), (truthy_absent_or_empty _ Hup),
      (truthy_absent_or_empty _ Hsort).
  - apply sort_by_createdAt_perm.
  - apply sort_newer_first.
Qed.

(** ** The delete path *)

(** X9.  A DELETE by a session that carries an email and without a
    model id ([id] absent, empty, an empty list, or a list whose first
    element is empty) is answered 400 with [{error}] after the user
    lookup alone: the model is not looked up and nothing is deleted. *)
Theorem delete_without_id (session : option Session) (req : Request) (w : World)
    (email_ : string) :
  method req = Some "DELETE" ->
  session_email session = Some email_ ->
  no_model_id (Query.id (query req)) ->
  run session req w
  = (Ok (Sent 400 (BodyError "model id query not found")),
     mkSt w [CallUserFindUnique (Some email_)]).
Proof.
  intros Hm Hemail Hid. unfold run. rewrite (handler_DELETE_dispatch _ _ Hm).
  rewrite <- Hemail.
  apply (handler_DELETE_no_id session req w
           (find (fun u => User.email u =? email_) (users w))).
  - now rewrite Hemail.
  - now apply no_model_id_spec.
Qed.

(** X19.  A lookup of the user with an [undefined] email raises: a
    DELETE by a session without an email (or without a session), and a
    POST by a session without an email, are not answered; the handler
    raises after the lookup, before the id test and the authorization
    check, and the world is left as it was. *)
Theorem lookup_without_email_raises (session : option Session) (req : Request)
    (w : World) :
  session_email session = None ->
  (method req = Some "DELETE"
   \/ (method req = Some "POST" /\ session <> None)) ->
  run session req w
  = (Throw PrismaValidationError, mkSt w [CallUserFindUnique None]).
Proof.
  intros Hemail [Hm | [Hm Hs]]; unfold run.
  - rewrite (handler_DELETE_dispatch _ _ Hm), <- Hemail.
    apply handler_DELETE_lookup_raises. now rewrite Hemail.
  - rewrite (handler_POST_dispatch _ _ Hm). unfold handler_POST.
    destruct session as [s |]; [| now elim Hs].
    unfold bind, user_findUnique, bind, call, get_world, lift.
    cbn [world calls app]. now rewrite Hemail.
Qed.

(** X10.  A DELETE whose [id] is a list is the DELETE of the first
    element of the list: the rest of the list, the other parameters and
    the body of the request play no part. *)
Theorem delete_array_id_first (session : option Session) (req req' : Request)
    (w : World) (x : string) (rest : list string) :
  method req = Some "DELETE" ->
  method req' = Some "DELETE" ->
  Query.id (query req) = Some (QArr (x :: rest)) ->
  Query.id (query req') = Some (QStr x) ->
  run session req w = run session req' w.
Proof.
  intros Hm Hm' Hid Hid'. unfold run.
  rewrite (handler_DELETE_dispatch _ _ Hm), (handler_DELETE_dispatch _ _ Hm').
  unfold handler_DELETE, modelId_of. now rewrite Hid, Hid'.
Qed.

Lemma find_other_after_delete (id_ id' : string) (ms : list Model.t) :
  id' <> id_ ->
  find (fun m => Model.id m =? id')
    (filter (fun m => negb (Model.id m =? id_)) ms)
  = find (fun m => Model.id m =? id') ms.
Proof.
  intros Hne. induction ms as [| x ms IH]; simpl; [reflexivity |].
  destruct (String.eqb_spec (Model.id x) id_) as [Hx | Hx]; simpl.
  - destruct (String.eqb_spec (Model.id x) id') as [Hx' | _]; [congruence | exact IH].
  - now rewrite IH.
Qed.

(** X11.  A DELETE that is answered 200 was allowed by the authorization
    helper and found its record; it has removed the rows with that id
    and no other: the users are the same, and every other id finds what
    it found before. *)
Theorem delete_success_effect (session : option Session) (req : Request) (w : World)
    (modelId : string) (b : Body) (st : St) :
  method req = Some "DELETE" ->
  modelId_of (query req) = Some modelId ->
  run session req w = (Ok (Sent 200 b), st) ->
  (exists user,
     user_by_email (session_email session) w = Ok user
     /\ hasRight (mkAction "model" "delete") user
          (Some (model_by_id modelId w)) = true)
  /\ model_by_id modelId w <> None
  /\ model_by_id modelId (world st) = None
  /\ users (world st) = users w
  /\ (forall id', id' <> modelId ->
        model_by_id id' (world st) = model_by_id id' w).
Proof.
  intros Hm Hid. unfold run. rewrite (handler_DELETE_dispatch _ _ Hm).
  destruct (user_by_email (session_email session) w) as [user | e] eqn:Hu;
    [| rewrite (handler_DELETE_lookup_raises session req w e Hu); discriminate].
  rewrite (handler_DELETE_checked session req w user modelId Hu Hid).
  destruct (hasRight _ _ _) eqn:Hright; [| discriminate].
  rewrite delete_sequence_run.
  destruct (deleteS3Files modelId (objects w)) as [objects' | e]; [| discriminate].
  destruct (model_by_id modelId w) as [m |] eqn:Hfound; [| discriminate].
  intros [= <- <-]. cbn [world users models].
  split; [now exists user |]. split; [discriminate |].
  split; [apply find_after_delete |]. split; [reflexivity |].
  intros id' Hne. unfold model_by_id. cbn [models].
  now apply find_other_after_delete.
Qed.

(** ** What a request may do *)

(** X12.  Whatever the request, a deletion (of stored objects or of a
    record) is called only for a DELETE that names a model id and that
    the authorization helper allows. *)
Theorem deletion_requires_right (session : option Session) (req : Request) (w : World) :
  existsb is_delete (calls (snd (run session req w))) = true ->
  method req = Some "DELETE" /\ may_delete session req w.
Proof.
  destruct (run_shape session req w) as [res [w' [cs [Hrun [_ [Hdel _]]]]]].
  rewrite Hrun. exact Hdel.
Qed.

(** X13.  Whatever the request, a file is processed only for a POST
    whose session resolves to a user with the right to create. *)
Theorem upload_requires_right (session : option Session) (req : Request) (w : World) :
  processed_files (calls (snd (run session req w))) <> [] ->
  method req = Some "POST" /\ may_create session w.
Proof.
  destruct (run_shape session req w) as [res [w' [cs [Hrun [_ [_ [Hup _]]]]]]].
  rewrite Hrun. exact Hup.
Qed.

(** X14.  Whatever the request, the world after the run differs from
    the world before only for a POST by a user with the right to create
    or a DELETE that the authorization helper allows; this holds also
    when the handler raises. *)
Theorem change_requires_right (session : option Session) (req : Request) (w : World) :
  world (snd (run session req w)) <> w ->
  (method req = Some "POST" /\ may_create session w)
  \/ (method req = Some "DELETE" /\ may_delete session req w).
Proof.
  destruct (run_shape session req w) as [res [w' [cs [Hrun [_ [_ [_ Hw]]]]]]].
  rewrite Hrun. exact Hw.
Qed.

(** ** The write path *)

(** X15.  A POST that has passed the guards calls the multipart parser
    right after the user lookup, with lists of files and kept
    extensions, and with a size limit of 104857600 bytes unless the
    role of the user is [ADMIN] or [DEVELOPER], for which there is no
    limit. *)
Theorem post_parse_options (s : Session) (req : Request) (w : World) (u : User.t) :
  method req = Some "POST" ->
  user_by_email (session_email (Some s)) w = Ok (Some u) ->
  hasRight (mkAction "model" "create") (Some u) None = true ->
  exists o rest,
    calls (snd (run (Some s) req w))
    = CallUserFindUnique (session_email (Some s)) :: CallFormParse o :: rest
    /\ multiples o = true
    /\ keepExtensions o = true
    /\ maxFileSize o
       = (if (User.role u =? "ADMIN") || (User.role u =? "DEVELOPER")
          then None else Some 104857600%Z).
Proof.
  intros Hm Hu Hright. unfold run. rewrite (handler_POST_dispatch _ _ Hm).
  destruct (handler_POST_allowed_run s req w u Hu Hright)
    as [res [w' [files [Hrun _]]]].
  rewrite Hrun. exists (options_for u), (map CallHandlePOST files).
  split; [reflexivity |].
  unfold options_for, upload_option.
  destruct ((User.role u =? "ADMIN") || (User.role u =? "DEVELOPER"));
    repeat split.
Qed.

(** X16.  A POST that has passed the guards and whose body parses, but
    whose [form] field is a non-empty text that [JSON.parse] refuses,
    is not answered: the handler raises the error of [JSON.parse]
    before any file is processed, and the world stays as it is. *)
Theorem post_form_not_json (s : Session) (req : Request) (w : World) (u : User.t)
    (formidable : FormidableResult) (form_field : QVal) (e : Exn) :
  method req = Some "POST" ->
  user_by_email (session_email (Some s)) w = Ok (Some u) ->
  hasRight (mkAction "model" "create") (Some u) None = true ->
  form_parse (options_for u) (parts req) = Ok formidable ->
  supplied (fields_form formidable) form_field ->
  JSON_parse (toString form_field) = Throw e ->
  run (Some s) req w
  = (Throw e,
     mkSt w [CallUserFindUnique (session_email (Some s));
             CallFormParse (options_for u)]).
Proof.
  intros Hm Hu Hright Hparse Hfield Hjson. unfold run.
  rewrite (handler_POST_dispatch _ _ Hm).
  rewrite (handler_POST_authorized s req w u Hu Hright), Hparse.
  unfold bind at 1. unfold draft_model.
  rewrite (truthy_supplied _ _ Hfield). unfold bind, lift. now rewrite Hjson.
Qed.

(** ** Response shaping *)

(** X17.  In a shaped record [modelSrc] is never empty, and
    [thumbnailSrc] and [usdzSrc] are empty exactly when the row has no
    thumbnail and no USDZ filename ([null] or the empty string): an
    empty URL tells the absence of the file. *)
Theorem shaped_src_empty (m : Model.t) :
  modelSrc (makeModelInfo m) <> ""
  /\ (thumbnailSrc (makeModelInfo m) = ""
      <-> Model.thumbnail m = None \/ Model.thumbnail m = Some "")
  /\ (usdzSrc (makeModelInfo m) = ""
      <-> Model.modelUsdz m = None \/ Model.modelUsdz m = Some "").
Proof.
  unfold makeModelInfo, truthy_str. cbn [modelSrc thumbnailSrc usdzSrc].
  split; [discriminate |].
  split.
  - destruct (Model.thumbnail m) as [t |]; [| tauto].
    destruct (String.eqb_spec t "") as [-> | Ht].
    + tauto.
    + split; [discriminate |]. intros [H | [= H]]; [discriminate H | contradiction].
  - destruct (Model.modelUsdz m) as [z |]; [| tauto].
    destruct (String.eqb_spec z "") as [-> | Hz].
    + tauto.
    + split; [discriminate |]. intros [H | [= H]]; [discriminate H | contradiction].
Qed.

End Further.

(** * The further properties on concrete requests *)

(** X1: a PUT. *)
Lemma method_not_allowed_witness :
  ~ In (match method Cases.put with Some m => m | None => "" end) allowedMethod
  /\ @run Demo.collab None Cases.put Demo.world0
     = (Ok (Sent 405 BodyEmpty), mkSt Demo.world0 []).
Proof.
  assert (Hnot : ~ In (match method Cases.put with Some m => m | None => "" end)
                   allowedMethod)
    by (cbn; intuition discriminate).
  given.
  exact (@method_not_allowed Demo.collab None Cases.put Demo.world0 Hnot).
Defined.

(** X2: the GET of the chair has sent a 200. *)
Lemma handler_status_codes_witness :
  @run Demo.collab None Demo.get_chair Demo.world0
  = (Ok (Sent 200 (BodyInfos [makeModelInfo Demo.chair])),
     mkSt Demo.world0 [CallModelFindUnique (QStr "42")])
  /\ exists n b,
       Sent 200 (BodyInfos [makeModelInfo Demo.chair]) = Sent n b
       /\ In n status_codes.
Proof.
  assert (Hrun : @run Demo.collab None Demo.get_chair Demo.world0
            = (Ok (Sent 200 (BodyInfos [makeModelInfo Demo.chair])),
               mkSt Demo.world0 [CallModelFindUnique (QStr "42")]))
    by reflexivity.
  given.
  exact (@handler_status_codes Demo.collab None Demo.get_chair Demo.world0 _ _ Hrun).
Defined.

(** X3: the default listing. *)
Lemma get_read_only_witness :
  method (Demo.get Demo.no_query) = Some "GET"
  /\ exists c,
       snd (@run Demo.collab None (Demo.get Demo.no_query) Demo.world0)
       = mkSt Demo.world0 [c]
       /\ is_read c = true.
Proof.
  assert (Hm : method (Demo.get Demo.no_query) = Some "GET") by reflexivity.
  given.
  exact (@get_read_only Demo.collab None (Demo.get Demo.no_query) Demo.world0 Hm).
Defined.

(** X4: with [id=42], every other parameter is ignored. *)
Lemma get_branch_priority_witness :
  method Cases.get_chair_and_more = Some "GET"
  /\ method Demo.get_chair = Some "GET"
  /\ supplied (Query.id (query Cases.get_chair_and_more)) (QStr "42")
  /\ Query.id (query Demo.get_chair) = Some (QStr "42")
  /\ @run Demo.collab (Demo.session_of Demo.bob) Cases.get_chair_and_more Demo.world0
     = @run Demo.collab None Demo.get_chair Demo.world0.
Proof.
  assert (Hm : method Cases.get_chair_and_more = Some "GET") by reflexivity.
  assert (Hm' : method Demo.get_chair = Some "GET") by reflexivity.
  assert (Hv : supplied (Query.id (query Cases.get_chair_and_more)) (QStr "42"))
    by (split; [reflexivity | discriminate]).
  assert (Hv' : Query.id (query Demo.get_chair) = Some (QStr "42")) by reflexivity.
  given.
  apply (@get_branch_priority Demo.collab (Demo.session_of Demo.bob) None
           Cases.get_chair_and_more Demo.get_chair Demo.world0 Hm Hm').
  left. exists (QStr "42"). split; assumption.
Defined.

(** X5: [sort=name&orderBy=asc&filterByName=a] finds both rows. *)
Lemma get_sorted_matches_witness :
  method Cases.get_by_name_a = Some "GET"
  /\ absent_or_empty (Query.id (query Cases.get_by_name_a))
  /\ absent_or_empty (Query.uploader (query Cases.get_by_name_a))
  /\ supplied (Query.sort (query Cases.get_by_name_a)) (QStr "name")
  /\ @findMany_rows Demo.collab
       (Some (@sort_where Demo.collab (query Cases.get_by_name_a)))
       (Some (sort_orderBy (QStr "name") (query Cases.get_by_name_a))) Demo.world0
     = Ok [Demo.apple; Demo.chair]
  /\ fst (@run Demo.collab None Cases.get_by_name_a Demo.world0)
     = Ok (Sent 200 (BodyData (makeModelInfos [Demo.apple; Demo.chair]) None)).
Proof.
  assert (Hm : method Cases.get_by_name_a = Some "GET") by reflexivity.
  assert (Hid : absent_or_empty (Query.id (query Cases.get_by_name_a)))
    by (left; reflexivity).
  assert (Hup : absent_or_empty (Query.uploader (query Cases.get_by_name_a)))
    by (left; reflexivity).
  assert (Hsort : supplied (Query.sort (query Cases.get_by_name_a)) (QStr "name"))
    by (split; [reflexivity | discriminate]).
  assert (Hrows : @findMany_rows Demo.collab
            (Some (@sort_where Demo.collab (query Cases.get_by_name_a)))
            (Some (sort_orderBy (QStr "name") (query Cases.get_by_name_a)))
            Demo.world0
          = Ok [Demo.apple; Demo.chair]) by reflexivity.
  given.
  exact (f_equal fst
           (@get_sorted_matches Demo.collab None Cases.get_by_name_a Demo.world0
              (QStr "name") Demo.apple [Demo.chair] Hm Hid Hup Hsort Hrows)).
Defined.

(** X6: [sort=price] names no column the ordering knows. *)
Lemma get_sorted_query_error_witness :
  method Cases.get_by_unknown_column = Some "GET"
  /\ absent_or_empty (Query.id (query Cases.get_by_unknown_column))
  /\ absent_or_empty (Query.uploader (query Cases.get_by_unknown_column))
  /\ supplied (Query.sort (query Cases.get_by_unknown_column)) (QStr "price")
  /\ @findMany_rows Demo.collab
       (Some (@sort_where Demo.collab (query Cases.get_by_unknown_column)))
       (Some (sort_orderBy (QStr "price") (query Cases.get_by_unknown_column)))
       Demo.world0
     = Throw PrismaValidationError
  /\ fst (@run Demo.collab None Cases.get_by_unknown_column Demo.world0)
     = Throw PrismaValidationError.
Proof.
  assert (Hm : method Cases.get_by_unknown_column = Some "GET") by reflexivity.
  assert (Hid : absent_or_empty (Query.id (query Cases.get_by_unknown_column)))
    by (left; reflexivity).
  assert (Hup : absent_or_empty (Query.uploader (query Cases.get_by_unknown_column)))
    by (left; reflexivity).
  assert (Hsort : supplied (Query.sort (query Cases.get_by_unknown_column))
                    (QStr "price"))
    by (split; [reflexivity | discriminate]).
  assert (Hrows : @findMany_rows Demo.collab
            (Some (@sort_where Demo.collab (query Cases.get_by_unknown_column)))
            (Some (sort_orderBy (QStr "price") (query Cases.get_by_unknown_column)))
            Demo.world0
          = Throw PrismaValidationError) by reflexivity.
  given.
  exact (f_equal fst
           (@get_sorted_query_error Demo.collab None Cases.get_by_unknown_column
              Demo.world0 (QStr "price") _ Hm Hid Hup Hsort Hrows)).
Defined.

(** X7: [category=food] is known and keeps the apple, whose category
    is [FOOD]. *)
Lemma category_filter_witness :
  supplied (Query.category Cases.food_query) (QStr "food")
  /\ In "food" (@Categories Demo.collab)
  /\ matches (@sort_where Demo.collab Cases.food_query) Demo.apple
     = matches (@sort_where Demo.collab (without_category Cases.food_query)) Demo.apple
       && (Model.category Demo.apple =? "FOOD").
Proof.
  assert (Hc : supplied (Query.category Cases.food_query) (QStr "food"))
    by (split; [reflexivity | discriminate]).
  assert (Hin : In "food" (@Categories Demo.collab)) by (cbn; tauto).
  given.
  exact (proj1 (@category_filter Demo.collab Cases.food_query (QStr "food")
                  Demo.apple Hc) Hin).
Defined.

(** X8: the listing of the two rows, the apple (created later) first. *)
Lemma get_default_listing_witness :
  method (Demo.get Demo.no_query) = Some "GET"
  /\ absent_or_empty (Query.id (query (Demo.get Demo.no_query)))
  /\ absent_or_empty (Query.uploader (query (Demo.get Demo.no_query)))
  /\ absent_or_empty (Query.sort (query (Demo.get Demo.no_query)))
  /\ exists rows,
       @run Demo.collab None (Demo.get Demo.no_query) Demo.world0
       = (Ok (Sent 200 (BodyInfos (makeModelInfos rows))),
          mkSt Demo.world0
            [CallModelFindMany None (Some ("createdAt", Some (QStr "desc")))])
       /\ Permutation rows (models Demo.world0)
       /\ StronglySorted newer_first rows.
Proof.
  assert (Hm : method (Demo.get Demo.no_query) = Some "GET") by reflexivity.
  assert (Hid : absent_or_empty (Query.id (query (Demo.get Demo.no_query))))
    by (left; reflexivity).
  assert (Hup : absent_or_empty (Query.uploader (query (Demo.get Demo.no_query))))
    by (left; reflexivity).
  assert (Hsort : absent_or_empty (Query.sort (query (Demo.get Demo.no_query))))
    by (left; reflexivity).
  given.
  exact (@get_default_listing Demo.collab None (Demo.get Demo.no_query) Demo.world0
           Hm Hid Hup Hsort).
Defined.

(** X9: a DELETE without [id]. *)
Lemma delete_without_id_witness :
  method (Demo.delete None) = Some "DELETE"
  /\ session_email (Demo.session_of Demo.alice) = Some "alice@example.org"
  /\ no_model_id (Query.id (query (Demo.delete None)))
  /\ @run Demo.collab (Demo.session_of Demo.alice) (Demo.delete None) Demo.world0
     = (Ok (Sent 400 (BodyError "model id query not found")),
        mkSt Demo.world0 [CallUserFindUnique (Some "alice@example.org")]).
Proof.
  assert (Hm : method (Demo.delete None) = Some "DELETE") by reflexivity.
  assert (Hemail : session_email (Demo.session_of Demo.alice)
                   = Some "alice@example.org") by reflexivity.
  assert (Hid : no_model_id (Query.id (query (Demo.delete None))))
    by (left; reflexivity).
  given.
  exact (@delete_without_id Demo.collab (Demo.session_of Demo.alice)
           (Demo.delete None) Demo.world0 "alice@example.org" Hm Hemail Hid).
Defined.

(** X19: a DELETE without a session, and a POST by a session that has
    no user. *)
Lemma lookup_without_email_raises_witness :
  session_email None = None
  /\ session_email Cases.session_without_email = None
  /\ method (Demo.delete (Some (QStr "42"))) = Some "DELETE"
  /\ method Demo.post_two_files = Some "POST"
  /\ @run Demo.collab None (Demo.delete (Some (QStr "42"))) Demo.world0
     = (Throw PrismaValidationError, mkSt Demo.world0 [CallUserFindUnique None])
  /\ @run Demo.collab Cases.session_without_email Demo.post_two_files Demo.world0
     = (Throw PrismaValidationError, mkSt Demo.world0 [CallUserFindUnique None]).
Proof.
  assert (Hnone : session_email None = None) by reflexivity.
  assert (Hanon : session_email Cases.session_without_email = None) by reflexivity.
  assert (Hdel : method (Demo.delete (Some (QStr "42"))) = Some "DELETE")
    by reflexivity.
  assert (Hpost : method Demo.post_two_files = Some "POST") by reflexivity.
  given. split.
  - apply (@lookup_without_email_raises Demo.collab None
             (Demo.delete (Some (QStr "42"))) Demo.world0 Hnone).
    now left.
  - apply (@lookup_without_email_raises Demo.collab Cases.session_without_email
             Demo.post_two_files Demo.world0 Hanon).
    right. split; [exact Hpost | discriminate].
Defined.

(** X10: [id=42&id=7] deletes the chair, as [id=42] does. *)
Lemma delete_array_id_first_witness :
  method Cases.delete_first_of_two = Some "DELETE"
  /\ method (Demo.delete (Some (QStr "42"))) = Some "DELETE"
  /\ Query.id (query Cases.delete_first_of_two) = Some (QArr ["42"; "7"])
  /\ Query.id (query (Demo.delete (Some (QStr "42")))) = Some (QStr "42")
  /\ @run Demo.collab (Demo.session_of Demo.bob) Cases.delete_first_of_two Demo.world0
     = @run Demo.collab (Demo.session_of Demo.bob) (Demo.delete (Some (QStr "42")))
         Demo.world0.
Proof.
  assert (Hm : method Cases.delete_first_of_two = Some "DELETE") by reflexivity.
  assert (Hm' : method (Demo.delete (Some (QStr "42"))) = Some "DELETE")
    by reflexivity.
  assert (Hid : Query.id (query Cases.delete_first_of_two) = Some (QArr ["42"; "7"]))
    by reflexivity.
  assert (Hid' : Query.id (query (Demo.delete (Some (QStr "42")))) = Some (QStr "42"))
    by reflexivity.
  given.
  exact (@delete_array_id_first Demo.collab (Demo.session_of Demo.bob)
           Cases.delete_first_of_two (Demo.delete (Some (QStr "42"))) Demo.world0
           "42" ["7"] Hm Hm' Hid Hid').
Defined.

(** X11: after the uploader has deleted the chair, the apple is still
    found. *)
Lemma delete_success_effect_witness :
  method (Demo.delete (Some (QStr "42"))) = Some "DELETE"
  /\ modelId_of (query (Demo.delete (Some (QStr "42")))) = Some "42"
  /\ fst (@run Demo.collab (Demo.session_of Demo.bob)
            (Demo.delete (Some (QStr "42"))) Demo.world0)
     = Ok (Sent 200 (BodyOk true "delete success!"))
  /\ model_by_id "7"
       (world (snd (@run Demo.collab (Demo.session_of Demo.bob)
                      (Demo.delete (Some (QStr "42"))) Demo.world0)))
     = model_by_id "7" Demo.world0.
Proof.
  assert (Hm : method (Demo.delete (Some (QStr "42"))) = Some "DELETE")
    by reflexivity.
  assert (Hid : modelId_of (query (Demo.delete (Some (QStr "42")))) = Some "42")
    by reflexivity.
  assert (Hsent : fst (@run Demo.collab (Demo.session_of Demo.bob)
                         (Demo.delete (Some (QStr "42"))) Demo.world0)
                  = Ok (Sent 200 (BodyOk true "delete success!")))
    by reflexivity.
  given.
  assert (Hrun : @run Demo.collab (Demo.session_of Demo.bob)
                   (Demo.delete (Some (QStr "42"))) Demo.world0
                 = (Ok (Sent 200 (BodyOk true "delete success!")),
                    snd (@run Demo.collab (Demo.session_of Demo.bob)
                           (Demo.delete (Some (QStr "42"))) Demo.world0)))
    by reflexivity.
  destruct (@delete_success_effect Demo.collab (Demo.session_of Demo.bob)
              (Demo.delete (Some (QStr "42"))) Demo.world0 "42" _ _ Hm Hid Hrun)
    as [_ [_ [_ [_ Hother]]]].
  apply Hother. discriminate.
Defined.

(** X12: the deletion of the chair by its uploader. *)
Lemma deletion_requires_right_witness :
  existsb is_delete
    (calls (snd (@run Demo.collab (Demo.session_of Demo.bob)
                   (Demo.delete (Some (QStr "42"))) Demo.world0))) = true
  /\ method (Demo.delete (Some (QStr "42"))) = Some "DELETE"
  /\ @may_delete Demo.collab (Demo.session_of Demo.bob)
       (Demo.delete (Some (QStr "42"))) Demo.world0.
Proof.
  assert (Hdel : existsb is_delete
            (calls (snd (@run Demo.collab (Demo.session_of Demo.bob)
                           (Demo.delete (Some (QStr "42"))) Demo.world0))) = true)
    by reflexivity.
  given.
  exact (@deletion_requires_right Demo.collab (Demo.session_of Demo.bob)
           (Demo.delete (Some (QStr "42"))) Demo.world0 Hdel).
Defined.

(** X13: the upload of two files by a user. *)
Lemma upload_requires_right_witness :
  processed_files
    (calls (snd (@run Demo.collab (Demo.session_of Demo.bob) Demo.post_two_files
                   Demo.world0))) <> []
  /\ method Demo.post_two_files = Some "POST"
  /\ @may_create Demo.collab (Demo.session_of Demo.bob) Demo.world0.
Proof.
  assert (Hup : processed_files
            (calls (snd (@run Demo.collab (Demo.session_of Demo.bob)
                           Demo.post_two_files Demo.world0))) <> [])
    by (intros H; vm_compute in H; discriminate H).
  given.
  exact (@upload_requires_right Demo.collab (Demo.session_of Demo.bob)
           Demo.post_two_files Demo.world0 Hup).
Defined.

(** X14: the world after the deletion of the chair is another one. *)
Lemma change_requires_right_witness :
  world (snd (@run Demo.collab (Demo.session_of Demo.bob)
                (Demo.delete (Some (QStr "42"))) Demo.world0)) <> Demo.world0
  /\ ((method (Demo.delete (Some (QStr "42"))) = Some "POST"
       /\ @may_create Demo.collab (Demo.session_of Demo.bob) Demo.world0)
      \/ (method (Demo.delete (Some (QStr "42"))) = Some "DELETE"
          /\ @may_delete Demo.collab (Demo.session_of Demo.bob)
               (Demo.delete (Some (QStr "42"))) Demo.world0)).
Proof.
  assert (Hw : world (snd (@run Demo.collab (Demo.session_of Demo.bob)
                             (Demo.delete (Some (QStr "42"))) Demo.world0))
               <> Demo.world0)
    by (intros H; vm_compute in H; discriminate H).
  given.
  exact (@change_requires_right Demo.collab (Demo.session_of Demo.bob)
           (Demo.delete (Some (QStr "42"))) Demo.world0 Hw).
Defined.

(** X15: the options for a user without a privileged role. *)
Lemma post_parse_options_witness :
  method Demo.post_huge = Some "POST"
  /\ user_by_email (session_email (Demo.session_of Demo.bob)) Demo.world0
     = Ok (Some Demo.bob)
  /\ @hasRight Demo.collab (mkAction "model" "create") (Some Demo.bob) None = true
  /\ exists o rest,
       calls (snd (@run Demo.collab (Demo.session_of Demo.bob) Demo.post_huge
                     Demo.world0))
       = CallUserFindUnique (Some "bob@example.org") :: CallFormParse o :: rest
       /\ multiples o = true
       /\ keepExtensions o = true
       /\ maxFileSize o = Some 104857600%Z.
Proof.
  assert (Hm : method Demo.post_huge = Some "POST") by reflexivity.
  assert (Hu : user_by_email (session_email (Demo.session_of Demo.bob)) Demo.world0
               = Ok (Some Demo.bob)) by reflexivity.
  assert (Hright : @hasRight Demo.collab (mkAction "model" "create")
                     (Some Demo.bob) None = true) by reflexivity.
  given.
  exact (@post_parse_options Demo.collab
           (mkSession (Some (mkSessionUser (Some "bob@example.org"))))
           Demo.post_huge Demo.world0 Demo.bob Hm Hu Hright).
Defined.

(** X16: the form field [{]. *)
Lemma post_form_not_json_witness :
  method Demo.post_broken_form = Some "POST"
  /\ user_by_email (session_email (Demo.session_of Demo.bob)) Demo.world0
     = Ok (Some Demo.bob)
  /\ @hasRight Demo.collab (mkAction "model" "create") (Some Demo.bob) None = true
  /\ @form_parse Demo.collab (options_for Demo.bob) (parts Demo.post_broken_form)
     = Ok (mkFormidableResult (Some (QStr "{")) (Single Demo.a_glb))
  /\ supplied (Some (QStr "{")) (QStr "{")
  /\ @JSON_parse Demo.collab "{" = Throw SyntaxError
  /\ fst (@run Demo.collab (Demo.session_of Demo.bob) Demo.post_broken_form
            Demo.world0)
     = Throw SyntaxError.
Proof.
  assert (Hm : method Demo.post_broken_form = Some "POST") by reflexivity.
  assert (Hu : user_by_email (session_email (Demo.session_of Demo.bob)) Demo.world0
               = Ok (Some Demo.bob)) by reflexivity.
  assert (Hright : @hasRight Demo.collab (mkAction "model" "create")
                     (Some Demo.bob) None = true) by reflexivity.
  assert (Hparse : @form_parse Demo.collab (options_for Demo.bob)
                     (parts Demo.post_broken_form)
                   = Ok (mkFormidableResult (Some (QStr "{")) (Single Demo.a_glb)))
    by reflexivity.
  assert (Hfield : supplied (Some (QStr "{")) (QStr "{"))
    by (split; [reflexivity | discriminate]).
  assert (Hjson : @JSON_parse Demo.collab "{" = Throw SyntaxError) by reflexivity.
  given.
  exact (f_equal fst
           (@post_form_not_json Demo.collab
              (mkSession (Some (mkSessionUser (Some "bob@example.org"))))
              Demo.post_broken_form Demo.world0 Demo.bob _ (QStr "{") SyntaxError
              Hm Hu Hright Hparse Hfield Hjson)).
Defined.
